(** * mindmap: transcript extraction, response cleanup and artifact building

    A shallow embedding of [app.py].  Python strings are sequences of
    Unicode code points; the two external services (captions, text
    generation) and the widgets of the page are events of a trace. *)

From Stdlib Require Import String Ascii List NArith Bool Arith Lia.
Import ListNotations.

Local Open Scope N_scope.

(** ** Python [str] *)

Module PyStr.

(** A [str] is a sequence of code points. *)
Definition pystr := list N.

(** Literal of the source text (ASCII literals only). *)
Definition str (s : string) : pystr :=
  map N_of_ascii (list_ascii_of_string s).

Fixpoint str_eqb (a b : pystr) : bool :=
  match a, b with
  | [], [] => true
  | x :: a', y :: b' => (x =? y) && str_eqb a' b'
  | _, _ => false
  end.

(** [s.startswith(p)] *)
Fixpoint startswith (s p : pystr) {struct p} : bool :=
  match p, s with
  | [], _ => true
  | y :: p', x :: s' => (x =? y) && startswith s' p'
  | _ :: _, [] => false
  end.

(** [s.endswith(p)]: the last [len(p)] code points of [s] are [p]. *)
Definition endswith (s p : pystr) : bool :=
  str_eqb (skipn (length s - length p) s) p.

(** [s[n:]] and [s[:-n]] for a literal [n >= 0]. *)
Definition slice_from (n : nat) (s : pystr) : pystr := skipn n s.
Definition slice_to_last (n : nat) (s : pystr) : pystr :=
  firstn (length s - n) s.

(** [Py_UNICODE_ISSPACE]: the code points [str.strip()] removes. *)
Definition isspace (c : N) : bool :=
  ((9 <=? c) && (c <=? 13)) || ((28 <=? c) && (c <=? 32))
  || (c =? 133) || (c =? 160) || (c =? 5760)
  || ((8192 <=? c) && (c <=? 8202))
  || (c =? 8232) || (c =? 8233) || (c =? 8239) || (c =? 8287)
  || (c =? 12288).

Fixpoint dropwhile (p : N -> bool) (s : pystr) : pystr :=
  match s with
  | [] => []
  | c :: s' => if p c then dropwhile p s' else s
  end.

Fixpoint takewhile (p : N -> bool) (s : pystr) : pystr :=
  match s with
  | [] => []
  | c :: s' => if p c then c :: takewhile p s' else []
  end.

Definition lstrip (s : pystr) : pystr := dropwhile isspace s.
Definition rstrip (s : pystr) : pystr := rev (dropwhile isspace (rev s)).

(** [s.strip()] *)
Definition strip (s : pystr) : pystr := rstrip (lstrip s).

(** A string with no leading white space. *)
Definition clean_head (s : pystr) : Prop :=
  match s with [] => True | c :: _ => isspace c = false end.

(** [sep.join(parts)] *)
Fixpoint join (sep : pystr) (parts : list pystr) : pystr :=
  match parts with
  | [] => []
  | [x] => x
  | x :: rest => x ++ sep ++ join sep rest
  end.

Definition is_empty (s : pystr) : bool :=
  match s with [] => true | _ :: _ => false end.

(** [needle in s] *)
Fixpoint contains (s needle : pystr) : bool :=
  startswith s needle ||
  match s with
  | [] => false
  | _ :: s' => contains s' needle
  end.

End PyStr.
Import PyStr.

(** ** Cleanup of the generated text ([generate_mind_map_markdown], l.70-76) *)

Definition fence_open : pystr := str "```markdown".
Definition fence_close : pystr := str "```".

Definition clean_response (response_text : pystr) : pystr :=
  let markdown_text := strip response_text in
  let markdown_text :=
    if startswith markdown_text fence_open
    then slice_from 10 markdown_text else markdown_text in
  let markdown_text :=
    if endswith markdown_text fence_close
    then slice_to_last 3 markdown_text else markdown_text in
  strip markdown_text.


(** ** Values, exceptions and name lookup *)

#[warnings="-register-all"]
Inductive value :=
| VNone
| VStr (s : pystr)
| VObj (label : string)
| VTuple (items : list value).

(** [NameError] and [ServiceError] are of class [Exception];
    [BaseOnly] stands for an exception whose class derives from
    [BaseException] and not from [Exception]: [KeyboardInterrupt],
    [SystemExit], [GeneratorExit]. *)
Inductive exn :=
| NameError (name : string)
| ServiceError (details : pystr)
| BaseOnly (class_name : string) (details : pystr).

(** [isinstance(e, Exception)] *)
Definition is_exception (e : exn) : bool :=
  match e with
  | BaseOnly _ _ => false
  | _ => true
  end.

(** [str(e)], as interpolated by [{e}]. *)
Definition exn_str (e : exn) : pystr :=
  match e with
  | NameError name => str "name '" ++ str name ++ str "' is not defined"
  | ServiceError details => details
  | BaseOnly _ details => details
  end.

Inductive result (A : Type) :=
| Ok (a : A)
| Raise (e : exn).
Arguments Ok {A} a.
Arguments Raise {A} e.

(** What the interpreter supplies and the program text does not fix:
    the Unicode tables beyond ASCII and the printed form of objects
    other than strings and [None]. *)
Record runtime := {
  rt_isalnum : N -> bool;
  rt_lower : pystr -> pystr;
  rt_format : value -> pystr
}.

Definition scope := list (string * value).

Fixpoint lookup_name (sc : scope) (id : string) : option value :=
  match sc with
  | [] => None
  | (k, v) :: sc' => if String.eqb k id then Some v else lookup_name sc' id
  end.

(** Names bound at module level by [app.py]. *)
Definition module_globals : scope :=
  map (fun id => (id, VObj id))
    ["st"; "genai"; "YouTubeTranscriptApi"; "re"; "json";
     "get_youtube_transcript"; "generate_mind_map_markdown";
     "create_markmap_html"; "main"]%string.

(** Names of the [builtins] module. *)
Definition builtin_names : list string :=
    ["ArithmeticError"; "AssertionError"; "AttributeError"; "BaseException";
     "BaseExceptionGroup"; "BlockingIOError"; "BrokenPipeError";
     "BufferError"; "BytesWarning"; "ChildProcessError";
     "ConnectionAbortedError"; "ConnectionError"; "ConnectionRefusedError";
     "ConnectionResetError"; "DeprecationWarning"; "EOFError"; "Ellipsis";
     "EncodingWarning"; "EnvironmentError"; "Exception"; "ExceptionGroup";
     "False"; "FileExistsError"; "FileNotFoundError"; "FloatingPointError";
     "FutureWarning"; "GeneratorExit"; "IOError"; "ImportError";
     "ImportWarning"; "IndentationError"; "IndexError"; "InterruptedError";
     "IsADirectoryError"; "KeyError"; "KeyboardInterrupt"; "LookupError";
     "MemoryError"; "ModuleNotFoundError"; "NameError"; "None";
     "NotADirectoryError"; "NotImplemented"; "NotImplementedError"; "OSError";
     "OverflowError"; "PendingDeprecationWarning"; "PermissionError";
     "ProcessLookupError"; "RecursionError"; "ReferenceError";
     "ResourceWarning"; "RuntimeError"; "RuntimeWarning";
     "StopAsyncIteration"; "StopIteration"; "SyntaxError"; "SyntaxWarning";
     "SystemError"; "SystemExit"; "TabError"; "TimeoutError"; "True";
     "TypeError"; "UnboundLocalError"; "UnicodeDecodeError";
     "UnicodeEncodeError"; "UnicodeError"; "UnicodeTranslateError";
     "UnicodeWarning"; "UserWarning"; "ValueError"; "Warning";
     "ZeroDivisionError"; "__build_class__"; "__debug__"; "__doc__";
     "__import__"; "__loader__"; "__name__"; "__package__"; "__spec__"; "abs";
     "aiter"; "all"; "anext"; "any"; "ascii"; "bin"; "bool"; "breakpoint";
     "bytearray"; "bytes"; "callable"; "chr"; "classmethod"; "compile";
     "complex"; "copyright"; "credits"; "delattr"; "dict"; "dir"; "divmod";
     "enumerate"; "eval"; "exec"; "exit"; "filter"; "float"; "format";
     "frozenset"; "getattr"; "globals"; "hasattr"; "hash"; "help"; "hex";
     "id"; "input"; "int"; "isinstance"; "issubclass"; "iter"; "len";
     "license"; "list"; "locals"; "map"; "max"; "memoryview"; "min"; "next";
     "object"; "oct"; "open"; "ord"; "pow"; "print"; "property"; "quit";
     "range"; "repr"; "reversed"; "round"; "set"; "setattr"; "slice";
     "sorted"; "staticmethod"; "str"; "sum"; "super"; "tuple"; "type"; "vars";
     "zip"]%string.

(** A name inside a function body: local, then global, then builtin;
    otherwise [NameError]. *)
Definition load_name (locals globals : scope) (id : string) : result value :=
  match lookup_name locals id with
  | Some v => Ok v
  | None =>
      match lookup_name globals id with
      | Some v => Ok v
      | None =>
          if existsb (String.eqb id) builtin_names
          then Ok (VObj id) else Raise (NameError id)
      end
  end.

(** ** Formatted string literals *)

(** The expressions that occur in the replacement fields of [app.py]:
    a name, or a tuple display of names such as [{ root, features }]. *)
Inductive expr :=
| EName (id : string)
| ETuple (ids : list string).

Inductive fpart :=
| Lit (text : pystr)
| Field (e : expr).

Fixpoint load_names (locals globals : scope) (ids : list string)
  : result (list value) :=
  match ids with
  | [] => Ok []
  | id :: ids' =>
      match load_name locals globals id with
      | Raise e => Raise e
      | Ok v =>
          match load_names locals globals ids' with
          | Raise e => Raise e
          | Ok vs => Ok (v :: vs)
          end
      end
  end.

Definition eval_expr (locals globals : scope) (e : expr) : result value :=
  match e with
  | EName id => load_name locals globals id
  | ETuple ids =>
      match load_names locals globals ids with
      | Raise e => Raise e
      | Ok vs => Ok (VTuple vs)
      end
  end.

Definition format_value (R : runtime) (v : value) : pystr :=
  match v with
  | VStr s => s
  | VNone => str "None"
  | _ => rt_format R v
  end.

(** Fields are evaluated left to right; the first exception ends the
    evaluation of the whole literal. *)
Fixpoint render (R : runtime) (locals globals : scope) (parts : list fpart)
  : result pystr :=
  match parts with
  | [] => Ok []
  | Lit text :: parts' =>
      match render R locals globals parts' with
      | Raise e => Raise e
      | Ok rest => Ok (text ++ rest)
      end
  | Field e :: parts' =>
      match eval_expr locals globals e with
      | Raise ex => Raise ex
      | Ok v =>
          match render R locals globals parts' with
          | Raise ex => Raise ex
          | Ok rest => Ok (format_value R v ++ rest)
          end
      end
  end.

Definition opt_value (o : option pystr) : value :=
  match o with Some s => VStr s | None => VNone end.

Definition nl : pystr := [10].
Definition dq : pystr := [34].
Definition backslash : pystr := [92].

(** ** [json.dumps] of a string or [None] (default [ensure_ascii=True]) *)

Definition hex_digit (d : N) : N := if d <? 10 then 48 + d else 87 + d.

(** ['{0:04x}'.format(n)] for [n < 0x10000]. *)
Definition hex4 (n : N) : pystr :=
  [hex_digit (n / 4096 mod 16); hex_digit (n / 256 mod 16);
   hex_digit (n / 16 mod 16); hex_digit (n mod 16)].

Definition u_escape (n : N) : pystr := backslash ++ str "u" ++ hex4 n.

(** Replacement of one code point matched by [ESCAPE_ASCII], that is of
    a backslash, a double quote or anything outside [' '..'~']. *)
Definition json_escape (c : N) : pystr :=
  if c =? 92 then backslash ++ backslash
  else if c =? 34 then backslash ++ dq
  else if c =? 8 then backslash ++ str "b"
  else if c =? 12 then backslash ++ str "f"
  else if c =? 10 then backslash ++ str "n"
  else if c =? 13 then backslash ++ str "r"
  else if c =? 9 then backslash ++ str "t"
  else if (32 <=? c) && (c <=? 126) then [c]
  else if c <? 65536 then u_escape c
  else
    let n := c - 65536 in
    u_escape (N.lor 55296 (N.land (N.shiftr n 10) 1023))
    ++ u_escape (N.lor 56320 (N.land n 1023)).

Definition json_dumps (obj : option pystr) : pystr :=
  match obj with
  | None => str "null"
  | Some s => dq ++ flat_map json_escape s ++ dq
  end.

(** ** Regular expressions of the program *)

Definition ascii_isalnum (c : N) : bool :=
  ((48 <=? c) && (c <=? 57)) || ((65 <=? c) && (c <=? 90))
  || ((97 <=? c) && (c <=? 122)).

(** [Py_UNICODE_ISALNUM] *)
Definition isalnum (R : runtime) (c : N) : bool :=
  if c <? 128 then ascii_isalnum c else rt_isalnum R c.

(** [\w] of a [str] pattern: alphanumeric or underscore. *)
Definition is_word (R : runtime) (c : N) : bool :=
  isalnum R c || (c =? 95).

(** The class [[\W_]]. *)
Definition nonword_or_underscore (R : runtime) (c : N) : bool :=
  negb (is_word R c) || (c =? 95).

(** [re.sub(cls+, repl, s)]: every maximal run of [cls] becomes [repl];
    [in_run] tells that the run being read has been replaced already. *)
Fixpoint sub_runs (cls : N -> bool) (repl : pystr) (in_run : bool)
  (s : pystr) : pystr :=
  match s with
  | [] => []
  | c :: s' =>
      if cls c
      then (if in_run then [] else repl) ++ sub_runs cls repl true s'
      else c :: sub_runs cls repl false s'
  end.

Definition ascii_lower (c : N) : N :=
  if (65 <=? c) && (c <=? 90) then c + 32 else c.

(** [s.lower()] *)
Definition is_ascii (c : N) : bool := c <? 128.

Definition lower (R : runtime) (s : pystr) : pystr :=
  if forallb is_ascii s then map ascii_lower s else rt_lower R s.

(** [re.sub(r'[\W_]+', '_', video_topic).lower() + ".html"] (l.179) *)
Definition safe_filename (R : runtime) (video_topic : pystr) : pystr :=
  lower R (sub_runs (nonword_or_underscore R) (str "_") false video_topic)
  ++ str ".html".

(** The class [[^&#]]. *)
Definition id_char (c : N) : bool := negb ((c =? 38) || (c =? 35)).

Definition marker_v : pystr := str "v=".
Definition marker_be : pystr := str "be/".

(** [re.search(r"(?<=v=)[^&#]+|(?<=be/)[^&#]+", url)] followed by
    [.group(0)]: the positions are tried from the left; at a position
    the text read so far must end with a marker and the greedy class
    must take at least one code point. *)
Fixpoint search_from (before rest : pystr) : option pystr :=
  let run := takewhile id_char rest in
  if (endswith before marker_v || endswith before marker_be)
     && negb (is_empty run)
  then Some run
  else
    match rest with
    | [] => None
    | c :: rest' => search_from (before ++ [c]) rest'
    end.

Definition search_video_id (youtube_url : pystr) : option pystr :=
  search_from [] youtube_url.

(** ** The outside world: services and page *)

(** A caption record; of its keys only ['text'] is read. *)
Record fragment := { text : pystr }.

Record services := {
  get_transcript : pystr -> result (list fragment);
  generate_content : pystr -> pystr -> result pystr
}.

Inductive event :=
| TranscriptRequest (video_id : pystr)
| GenerationRequest (api_key prompt : pystr)
| StError (body : pystr)
| StSuccess (body : pystr)
| StCode (body : option pystr)
| StDownload (data file_name mime : pystr).

Definition is_network_call (e : event) : bool :=
  match e with
  | TranscriptRequest _ | GenerationRequest _ _ => true
  | _ => false
  end.

Definition network_calls (trace : list event) : list event :=
  filter is_network_call trace.

(** A computation: the events it caused, then its value or exception. *)
Definition io (A : Type) : Type := (list event * result A)%type.

Definition ret {A} (a : A) : io A := ([], Ok a).

Definition bind {A B} (m : io A) (k : A -> io B) : io B :=
  match m with
  | (t, Ok a) => let (t', r) := k a in (t ++ t', r)
  | (t, Raise e) => (t, Raise e)
  end.

Definition emit (e : event) : io unit := ([e], Ok tt).

Definition lift {A} (r : result A) : io A := ([], r).

(** [try: body / except Exception as e: handler]: an exception that is
    not of class [Exception] is not handled and goes on. *)
Definition try_except {A} (body : io A) (handler : exn -> io A) : io A :=
  match body with
  | (t, Ok a) => (t, Ok a)
  | (t, Raise e) =>
      if is_exception e
      then let (t', r) := handler e in (t ++ t', r)
      else (t, Raise e)
  end.

Declare Scope io_scope.
Delimit Scope io_scope with io.
Notation "x <- m ;; k" := (bind m (fun x => k))
  (at level 61, m at next level, right associativity) : io_scope.
Notation "m ;; k" := (bind m (fun _ => k))
  (at level 61, right associativity) : io_scope.
Local Open Scope io_scope.

(** ** [get_youtube_transcript] *)

Definition invalid_url_message : pystr :=
  str "Error: Could not extract video ID from the URL. Please use a valid YouTube video link.".

Definition transcript_error_message (e : exn) : pystr :=
  str "Error: Could not fetch transcript. The video might not have transcripts enabled, or the URL is incorrect. (Details: "
  ++ exn_str e ++ str ")".

Definition get_youtube_transcript (W : services) (youtube_url : pystr)
  : io (option pystr * option pystr) :=
  try_except
    (match search_video_id youtube_url with
     | None => ret (None, Some invalid_url_message)
     | Some video_id =>
         transcript_list <-
           (emit (TranscriptRequest video_id) ;;
            lift (get_transcript W video_id)) ;;
         let transcript_text := join (str " ") (map text transcript_list) in
         ret (Some transcript_text, None)
     end)
    (fun e => ret (None, Some (transcript_error_message e))).

(** ** [generate_mind_map_markdown] *)

Definition prompt_head : pystr :=
  nl
  ++ str "### **System Instructions & Persona**" ++ nl
  ++ str "You are an expert AI assistant specializing in academic content analysis for competitive examinations. Your specific persona is that of a **UPSC (Union Public Service Commission) Exam Analyst**." ++ nl
  ++ nl
  ++ str "Your primary function is to process educational content and restructure it into a highly organized, hierarchical mind map format for efficient learning and revision. You are precise, factual, and strictly adhere to the provided source material to ensure accuracy, which is paramount for exam preparation." ++ nl
  ++ nl
  ++ str "### **Workflow Goal**" ++ nl
  ++ str "Your task is to analyze the provided `{youtube_transcript}` on the topic of `{video_topic}` and convert it into a logical mind map using Markdown syntax compatible with the `markmap` tool." ++ nl
  ++ nl
  ++ str "### **Core Instructions & Constraints**" ++ nl
  ++ str "1.  **Strict Source Adherence:** You **MUST** derive all information exclusively from the provided `{youtube_transcript}`. Do not introduce any external facts, figures, or concepts. Your role is to distill and structure the given information, not to supplement it. This is a strict rule to prevent factual inaccuracies (hallucinations)." ++ nl
  ++ str "2.  **UPSC Relevance Filter:** Analyze the transcript through the lens of the UPSC Civil Services Examination syllabus. Prioritize and extract key information relevant to the exam." ++ nl
  ++ str "3.  **Logical Structuring:** Do not just list points. You must identify the main themes in the transcript and organize the extracted details hierarchically under these themes. The structure should flow logically from main ideas to supporting details." ++ nl
  ++ str "4.  **Conciseness:** Use clear and concise language. Summarize points effectively without losing their core meaning. Use bullet points for detailed breakdowns under a main heading." ++ nl
  ++ nl
  ++ str "### **Output Format (CRITICAL)**" ++ nl
  ++ str "The output **MUST** be a single Markdown code block formatted for `markmap`. Follow this structure precisely:" ++ nl
  ++ str "* **Root Node (`#`):** The main topic of the video, using the `{video_topic}` variable." ++ nl
  ++ str "* **Main Branches (`-`):** The primary themes or sections identified from the transcript." ++ nl
  ++ str "* **Sub-branches (indented `-`):** Supporting details, facts, figures, and examples. Use two spaces for each level of indentation." ++ nl
  ++ nl
  ++ str "-----" ++ nl
  ++ str "### **User Input Variables**" ++ nl
  ++ nl
  ++ str "*   `{video_topic}`: ".

Definition prompt_middle : pystr :=
  nl
  ++ str "*   `{youtube_transcript}`: ".

Definition prompt_tail : pystr :=
  nl.

Definition prompt_template : list fpart :=
  [ Lit prompt_head;
    Field (EName "topic");
    Lit prompt_middle;
    Field (EName "transcript");
    Lit prompt_tail ].

Definition generation_error_message (e : exn) : pystr :=
  str "Error: Failed to generate mind map from the LLM. Please check your API key and try again. (Details: "
  ++ exn_str e ++ str ")".

Definition generate_mind_map_markdown (R : runtime) (W : services)
  (api_key topic : pystr) (transcript : option pystr)
  : io (option pystr * option pystr) :=
  let locals : scope :=
    [("api_key", VStr api_key); ("topic", VStr topic);
     ("transcript", opt_value transcript); ("model", VObj "model")]%string in
  try_except
    (prompt <- lift (render R locals module_globals prompt_template) ;;
     response_text <-
       (emit (GenerationRequest api_key prompt) ;;
        lift (generate_content W api_key prompt)) ;;
     ret (Some (clean_response response_text), None))
    (fun e => ret (None, Some (generation_error_message e))).

(** ** [create_markmap_html] *)

Definition html_head : pystr :=
  nl
  ++ str "<!DOCTYPE html>" ++ nl
  ++ str "<html>" ++ nl
  ++ str "<head>" ++ nl
  ++ str "<meta charset=" ++ dq ++ str "UTF-8" ++ dq ++ str ">" ++ nl
  ++ str "<meta name=" ++ dq ++ str "viewport" ++ dq ++ str " content=" ++ dq ++ str "width=device-width, initial-scale=1.0" ++ dq ++ str ">" ++ nl
  ++ str "<title>Markmap: ".

Definition html_after_title : pystr :=
  str "</title>" ++ nl
  ++ str "<style>" ++ nl
  ++ str "* { margin: 0; padding: 0; }" ++ nl
  ++ str "#mindmap { height: 100vh; width: 100vw; }" ++ nl
  ++ str "</style>" ++ nl
  ++ str "<script src=" ++ dq ++ str "https://cdn.jsdelivr.net/npm/d3@7" ++ dq ++ str "></script>" ++ nl
  ++ str "<script src=" ++ dq ++ str "https://cdn.jsdelivr.net/npm/markmap-lib" ++ dq ++ str "></script>" ++ nl
  ++ str "<script src=" ++ dq ++ str "https://cdn.jsdelivr.net/npm/markmap-view" ++ dq ++ str "></script>" ++ nl
  ++ str "</head>" ++ nl
  ++ str "<body>" ++ nl
  ++ str "<svg id=" ++ dq ++ str "mindmap" ++ dq ++ str "></svg>" ++ nl
  ++ str "<script>" ++ nl
  ++ str "((markmap) => {" ++ nl
  ++ str "  const ".

Definition html_after_names : pystr :=
  str " = markmap;" ++ nl
  ++ str "  const transformer = new Transformer();" ++ nl
  ++ str "  const ".

Definition html_before_markdown : pystr :=
  str " = transformer.transform(".

Definition html_after_markdown : pystr :=
  str ");" ++ nl
  ++ str "  const ".

Definition html_tail : pystr :=
  str " = transformer.getUsedAssets(features);" ++ nl
  ++ str "  if (styles) loadCSS(styles);" ++ nl
  ++ str "  if (scripts) loadJS(scripts, { getMarkmap: () => markmap });" ++ nl
  ++ str "  Markmap.create('#mindmap', undefined, root);" ++ nl
  ++ str "})({...window.markmap});" ++ nl
  ++ str "</script>" ++ nl
  ++ str "</body>" ++ nl
  ++ str "</html>" ++ nl.

Definition html_template : list fpart :=
  [ Lit html_head;
    Field (EName "topic");
    Lit html_after_title;
    Field (ETuple ["Transformer"; "Markmap"; "loadCSS"; "loadJS"]%string);
    Lit html_after_names;
    Field (ETuple ["root"; "features"]%string);
    Lit html_before_markdown;
    Field (EName "escaped_markdown");
    Lit html_after_markdown;
    Field (ETuple ["styles"; "scripts"]%string);
    Lit html_tail ].

Definition create_markmap_html (R : runtime) (topic : pystr)
  (markdown_content : option pystr) : result pystr :=
  let escaped_markdown := json_dumps markdown_content in
  let locals : scope :=
    [("topic", VStr topic); ("markdown_content", opt_value markdown_content);
     ("escaped_markdown", VStr escaped_markdown)]%string in
  render R locals module_globals html_template.

(** ** [main]: what one run of the page script does

    The inputs are the three text fields and the state of the Generate
    button.  The calls that report an outcome ([st.error], [st.success],
    [st.code], [st.download_button]) are events; titles, headers and
    spinners are left out. *)

Definition cross_mark : pystr := [10060].
Definition check_mark : pystr := [9989].

Definition missing_key_message : pystr :=
  cross_mark ++ str " Please enter your Google AI API Key in the sidebar.".
Definition missing_topic_message : pystr :=
  cross_mark ++ str " Please provide a video topic.".
Definition missing_url_message : pystr :=
  cross_mark ++ str " Please provide a YouTube URL.".

(** Truth value of the [error] component of a returned pair. *)
Definition truthy (o : option pystr) : option pystr :=
  match o with
  | Some (c :: s) => Some (c :: s)
  | _ => None
  end.

Definition main (R : runtime) (W : services)
  (api_key video_topic youtube_url : pystr) (generate_clicked : bool)
  : io unit :=
  if generate_clicked then
    if is_empty api_key then emit (StError missing_key_message)
    else if is_empty video_topic then emit (StError missing_topic_message)
    else if is_empty youtube_url then emit (StError missing_url_message)
    else
      p <- get_youtube_transcript W youtube_url ;;
      let '(transcript, error) := p in
      match truthy error with
      | Some error => emit (StError error)
      | None =>
          emit (StSuccess (check_mark ++ str " Transcript extracted successfully!")) ;;
          q <- generate_mind_map_markdown R W api_key video_topic transcript ;;
          let '(markdown_output, error) := q in
          match truthy error with
          | Some error => emit (StError error)
          | None =>
              emit (StSuccess (check_mark ++ str " Mind map generated successfully!")) ;;
              html_content <-
                lift (create_markmap_html R video_topic markdown_output) ;;
              let file_name := safe_filename R video_topic in
              emit (StSuccess (check_mark ++ str " HTML file ready for download!")) ;;
              emit (StCode markdown_output) ;;
              emit (StDownload html_content file_name (str "text/html"))
          end
      end
  else ret tt.

(** ** Vocabulary of the statements *)

(** The pattern [^[a-z0-9_]+\.html$], with [$] read as the end of the
    string. *)
Definition filename_char (c : N) : bool :=
  ((97 <=? c) && (c <=? 122)) || ((48 <=? c) && (c <=? 57)) || (c =? 95).

Definition matches_filename_pattern (s : pystr) : bool :=
  let body := slice_to_last 5 s in
  endswith s (str ".html") && negb (is_empty body) && forallb filename_char body.

(** An ASCII letter, digit or underscore. *)
Definition kept (c : N) : bool := ascii_isalnum c || (c =? 95).

(** A code point that is ASCII, or that the Unicode table does not
    count as a letter or a digit. *)
Definition ascii_or_not_alnum (R : runtime) (c : N) : bool :=
  is_ascii c || negb (rt_isalnum R c).

(** The identifier pattern matches at position [i] of [url]: the text
    before [i] ends with [v=] or with [be/], and the code point at [i]
    is neither [&] nor [#]. *)
Definition id_pattern_at (url : pystr) (i : nat) : bool :=
  (endswith (firstn i url) marker_v || endswith (firstn i url) marker_be)
  && match nth_error url i with Some c => id_char c | None => false end.

Definition no_match_before (url : pystr) (n : nat) : bool :=
  forallb (fun i => negb (id_pattern_at url i)) (seq 0 n).

(** A URL that has neither the [v=] pattern nor the [be/] pattern. *)
Definition matches_nowhere (url : pystr) : bool :=
  no_match_before url (S (length url)).

(** The texts in order, each one after the first preceded by one space. *)
Definition spaced (texts : list pystr) : pystr :=
  match texts with
  | [] => []
  | t :: rest => t ++ flat_map (fun u => 32 :: u) rest
  end.

(** Exactly one component of a returned pair is [None]. *)
Definition exactly_one_null (p : option pystr * option pystr) : bool :=
  match p with
  | (Some _, None) | (None, Some _) => true
  | _ => false
  end.

Definition is_download (e : event) : bool :=
  match e with StDownload _ _ _ => true | _ => false end.

(** A runtime whose tables are empty beyond ASCII; it serves to run the
    program on ASCII inputs, where the tables are not consulted. *)
Definition bare_runtime : runtime :=
  {| rt_isalnum := fun _ => false;
     rt_lower := fun s => s;
     rt_format := fun _ => [] |}.

(** The services of the end-to-end scenario: two caption records, and a
    generated text wrapped in a fenced block. *)
Definition scenario_response : pystr :=
  str "```markdown" ++ nl ++ str "# Test Topic" ++ nl ++ str "- A" ++ nl
  ++ str "  - B" ++ nl ++ str "```".

Definition scenario_services : services :=
  {| get_transcript := fun _ => Ok [ {| text := str "Hello" |}; {| text := str "World" |} ];
     generate_content := fun _ _ => Ok scenario_response |}.

(** Services interrupted from the keyboard while they are called. *)
Definition interrupted_services : services :=
  {| get_transcript := fun _ => Raise (BaseOnly "KeyboardInterrupt" []);
     generate_content := fun _ _ => Raise (BaseOnly "KeyboardInterrupt" []) |}.

Definition scenario_topic : pystr := str "Test Topic".
Definition scenario_url : pystr := str "https://www.youtube.com/watch?v=abc123".
Definition scenario_markdown : pystr :=
  str "# Test Topic" ++ nl ++ str "- A" ++ nl ++ str "  - B".

(** ** Vocabulary of the further properties *)

(** A printable ASCII code point, [' '..'~']. *)
Definition printable (c : N) : bool := (32 <=? c) && (c <=? 126).

(** A printable ASCII code point other than the double quote and the
    backslash. *)
Definition plain (c : N) : bool :=
  printable c && negb (c =? 34) && negb (c =? 92).

Definition is_hex (c : N) : bool :=
  ((48 <=? c) && (c <=? 57)) || ((97 <=? c) && (c <=? 102))
  || ((65 <=? c) && (c <=? 70)).

(** The letter after a backslash in a two-character escape of JSON. *)
Definition simple_escape (e : N) : bool :=
  (e =? 34) || (e =? 92) || (e =? 47) || (e =? 98) || (e =? 102)
  || (e =? 110) || (e =? 114) || (e =? 116).

(** The characters between the quotes of a JSON string (RFC 8259): a
    character from U+0020 on other than quote and backslash, a
    two-character escape, or [\u] and four hexadecimal digits. *)
Fixpoint json_string_body (s : pystr) : bool :=
  match s with
  | [] => true
  | c :: s1 =>
      if c =? 92 then
        match s1 with
        | [] => false
        | e :: s2 =>
            if e =? 117 then
              match s2 with
              | h1 :: h2 :: h3 :: h4 :: s3 =>
                  is_hex h1 && is_hex h2 && is_hex h3 && is_hex h4
                  && json_string_body s3
              | _ => false
              end
            else simple_escape e && json_string_body s2
        end
      else (32 <=? c) && negb (c =? 34) && json_string_body s1
  end.

Definition is_generation_request (e : event) : bool :=
  match e with GenerationRequest _ _ => true | _ => false end.

(** The prompt sent for a topic and a transcript. *)
Definition prompt_for (topic transcript : pystr) : pystr :=
  prompt_head ++ topic ++ prompt_middle ++ transcript ++ prompt_tail.

(** [t] occurs in [s] as a run of consecutive code points. *)
Definition substring (t s : pystr) : Prop := exists a b, s = a ++ t ++ b.

(** * Properties *)

(** ** Strings *)

Section StringFacts.

Lemma str_eqb_eq (a b : pystr) : str_eqb a b = true <-> a = b.
Proof.
  revert b; induction a as [|x a IH]; intros [|y b]; simpl;
    try (split; [discriminate | congruence]); try tauto.
  rewrite andb_true_iff, N.eqb_eq, IH.
  split; [intros [-> ->]; reflexivity | intros H; inversion H; auto].
Qed.

Lemma startswith_spec (s p : pystr) :
  startswith s p = true <-> exists r, s = p ++ r.
Proof.
  revert s; induction p as [|y p IH]; intros s; simpl.
  - split; [intros _; exists s; reflexivity | reflexivity].
  - destruct s as [|x s].
    + split; [discriminate | intros [r H]; discriminate].
    + rewrite andb_true_iff, N.eqb_eq, IH. split.
      * intros [-> [r ->]]. exists r. reflexivity.
      * intros [r H]. inversion H; subst. split; [reflexivity | eauto].
Qed.

Lemma endswith_spec (s p : pystr) :
  endswith s p = true <-> exists a, s = a ++ p.
Proof.
  unfold endswith. rewrite str_eqb_eq. split.
  - intros H. exists (firstn (length s - length p) s).
    pose proof (firstn_skipn (length s - length p) s) as E.
    rewrite H in E. symmetry. exact E.
  - intros [a ->]. rewrite length_app.
    replace (length a + length p - length p)%nat with (length a + 0)%nat by lia.
    rewrite skipn_app, Nat.add_0_r, Nat.sub_diag, skipn_all. reflexivity.
Qed.

Lemma endswith_app (a p : pystr) : endswith (a ++ p) p = true.
Proof. apply endswith_spec. eauto. Qed.

Lemma slice_to_last_app (a p : pystr) :
  slice_to_last (length p) (a ++ p) = a.
Proof.
  unfold slice_to_last. rewrite length_app.
  replace (length a + length p - length p)%nat with (length a + 0)%nat by lia.
  rewrite firstn_app_2, firstn_O, app_nil_r. reflexivity.
Qed.

Lemma dropwhile_clean_head s : clean_head (dropwhile isspace s).
Proof.
  induction s as [|c s IH]; simpl; [exact I|].
  destruct (isspace c) eqn:E; [exact IH | exact E].
Qed.

Lemma dropwhile_id s : clean_head s -> dropwhile isspace s = s.
Proof. destruct s as [|c s]; simpl; [reflexivity | intros ->; reflexivity]. Qed.

Lemma dropwhile_split p s :
  exists w, s = w ++ dropwhile p s /\ forallb p w = true.
Proof.
  induction s as [|c s [w [H1 H2]]]; simpl.
  - exists []. split; reflexivity.
  - destruct (p c) eqn:E.
    + exists (c :: w). simpl. rewrite E, H2. split; [congruence | reflexivity].
    + exists []. split; reflexivity.
Qed.

Lemma dropwhile_app_last p l c :
  p c = false -> exists l', dropwhile p (l ++ [c]) = l' ++ [c].
Proof.
  intros Hc. induction l as [|x l [l' IH]]; simpl.
  - rewrite Hc. exists []. reflexivity.
  - destruct (p x).
    + exists l'. exact IH.
    + exists (x :: l). reflexivity.
Qed.

Lemma clean_head_prefix a b : clean_head (a ++ b) -> a <> [] -> clean_head a.
Proof. destruct a; simpl; [congruence | auto]. Qed.

Lemma rstrip_prefix s : exists w, s = rstrip s ++ w.
Proof.
  unfold rstrip. destruct (dropwhile_split isspace (rev s)) as [w [H _]].
  exists (rev w). rewrite <- rev_app_distr, <- H, rev_involutive. reflexivity.
Qed.

Lemma rstrip_idem s : rstrip (rstrip s) = rstrip s.
Proof.
  unfold rstrip. rewrite rev_involutive.
  rewrite (dropwhile_id _ (dropwhile_clean_head _)). reflexivity.
Qed.

Lemma rstrip_clean_head s : clean_head s -> clean_head (rstrip s).
Proof.
  intros H. destruct (rstrip_prefix s) as [w Hw].
  destruct (rstrip s) as [|c t] eqn:E; [exact I|].
  rewrite Hw in H. exact H.
Qed.

Lemma strip_clean_head s : clean_head (strip s).
Proof. apply rstrip_clean_head, dropwhile_clean_head. Qed.

Lemma strip_of_clean s : clean_head s -> strip s = rstrip s.
Proof. intros H. unfold strip, lstrip. rewrite dropwhile_id; auto. Qed.

Lemma strip_idem s : strip (strip s) = strip s.
Proof.
  rewrite strip_of_clean by apply strip_clean_head.
  unfold strip. apply rstrip_idem.
Qed.

Lemma strip_nil : strip [] = [].
Proof. reflexivity. Qed.

Lemma strip_cons_nonspace c z :
  isspace c = false -> exists y, strip (c :: z) = c :: y.
Proof.
  intros Hc. rewrite strip_of_clean by exact Hc.
  unfold rstrip. simpl rev.
  destruct (dropwhile_app_last isspace (rev z) c Hc) as [l' ->].
  rewrite rev_app_distr. simpl. eauto.
Qed.

Lemma firstn_prefix (n : nat) (s : pystr) : exists w, s = firstn n s ++ w.
Proof. exists (skipn n s). symmetry. apply firstn_skipn. Qed.

End StringFacts.

(** ** Cleanup of the response *)

Section Cleanup.

(** Whatever the response, the cleaned text does not start with the
    opening fence. *)
Lemma clean_response_no_open_fence raw :
  startswith (clean_response raw) fence_open = false.
Proof.
  unfold clean_response.
  pose proof (strip_clean_head raw) as Hs.
  set (s := strip raw) in *.
  destruct (startswith s fence_open) eqn:Ho.
  - apply startswith_spec in Ho. destruct Ho as [r Hr].
    assert (H10 : slice_from 10 s = 110 :: r) by (rewrite Hr; reflexivity).
    rewrite H10.
    assert (Hn : forall x, x = [] \/ (exists z, x = 110 :: z) ->
                   startswith (strip x) fence_open = false).
    { intros x [-> | [z ->]]; [reflexivity|].
      destruct (strip_cons_nonspace 110 z eq_refl) as [y ->]. reflexivity. }
    destruct (endswith (110 :: r) fence_close); apply Hn.
    + unfold slice_to_last.
      match goal with |- context [firstn ?k _] => destruct k end; simpl; eauto.
    + eauto.
  - assert (Hp : forall x, (exists w, s = x ++ w) ->
                   startswith (strip x) fence_open = false).
    { intros x [w Hw].
      destruct x as [|c x]; [reflexivity|].
      assert (Hc : clean_head (c :: x)).
      { apply clean_head_prefix with (b := w); [rewrite <- Hw; exact Hs | discriminate]. }
      rewrite strip_of_clean by exact Hc.
      destruct (rstrip_prefix (c :: x)) as [w' Hw'].
      destruct (startswith (rstrip (c :: x)) fence_open) eqn:E; [|reflexivity].
      apply startswith_spec in E. destruct E as [r Hr].
      assert (startswith s fence_open = true).
      { apply startswith_spec. exists (r ++ w' ++ w).
        rewrite Hw, Hw', Hr, <- !app_assoc. reflexivity. }
      congruence. }
    destruct (endswith s fence_close); apply Hp.
    + apply firstn_prefix.
    + exists []. symmetry. apply app_nil_r.
Qed.

End Cleanup.

(** C4 (amended).  An output of the cleanup step that does not end with
    the closing fence marker is left unchanged by a second application
    of the step. *)
Theorem clean_response_idempotent (raw : pystr) :
  endswith (clean_response raw) fence_close = false ->
  clean_response (clean_response raw) = clean_response raw.
Proof.
  intros Hclose.
  assert (Hs : strip (clean_response raw) = clean_response raw)
    by (unfold clean_response; apply strip_idem).
  unfold clean_response at 1. cbv zeta.
  rewrite Hs, clean_response_no_open_fence, Hclose. exact Hs.
Qed.

Lemma clean_response_idempotent_witness :
  endswith (clean_response scenario_response) fence_close = false
  /\ clean_response (clean_response scenario_response)
     = clean_response scenario_response.
Proof.
  split; [reflexivity | apply clean_response_idempotent; reflexivity].
Defined.

(** C4 as stated fails: a response closed by two fence lines loses one
    of them at each application of the step. *)
Lemma clean_response_twice_differs :
  clean_response
    (clean_response (str "# T" ++ nl ++ str "```" ++ nl ++ str "```"))
  <> clean_response (str "# T" ++ nl ++ str "```" ++ nl ++ str "```").
Proof. vm_compute. discriminate. Qed.

(** ** File name of the download *)

(** Case analysis on every comparison of code points in sight. *)
Ltac split_tests :=
  repeat match goal with
    | |- context [N.leb ?a ?b] => destruct (N.leb_spec a b)
    | |- context [N.ltb ?a ?b] => destruct (N.ltb_spec a b)
    | |- context [N.eqb ?a ?b] => destruct (N.eqb_spec a b)
    | H : context [N.leb ?a ?b] |- _ => destruct (N.leb_spec a b)
    | H : context [N.ltb ?a ?b] |- _ => destruct (N.ltb_spec a b)
    | H : context [N.eqb ?a ?b] |- _ => destruct (N.eqb_spec a b)
    end;
  simpl in *; try reflexivity; try discriminate; try lia.

Section FileName.

Variable R : runtime.

Lemma ascii_word_kept c :
  is_ascii c = true -> nonword_or_underscore R c = false -> kept c = true.
Proof.
  unfold is_ascii, nonword_or_underscore, is_word, isalnum, kept.
  intros Ha. rewrite Ha. destruct (ascii_isalnum c); [reflexivity|].
  split_tests.
Qed.

Lemma sub_runs_kept s : forall in_run,
  forallb is_ascii s = true ->
  forallb kept (sub_runs (nonword_or_underscore R) (str "_") in_run s) = true.
Proof.
  induction s as [|c s IH]; intros in_run Hs; simpl in *; [reflexivity|].
  apply andb_true_iff in Hs. destruct Hs as [Hc Hs].
  destruct (nonword_or_underscore R c) eqn:E.
  - rewrite forallb_app, IH by exact Hs.
    destruct in_run; reflexivity.
  - simpl. rewrite IH by exact Hs.
    rewrite (ascii_word_kept c Hc E). reflexivity.
Qed.

Lemma sub_runs_nonempty cls s :
  is_empty s = false -> is_empty (sub_runs cls (str "_") false s) = false.
Proof.
  destruct s as [|c s]; simpl; [discriminate|]. intros _.
  destruct (cls c); reflexivity.
Qed.

Lemma kept_is_ascii u : forallb kept u = true -> forallb is_ascii u = true.
Proof.
  induction u as [|c u IH]; simpl; [reflexivity|].
  rewrite !andb_true_iff. intros [Hc Hu]. split; [|auto].
  revert Hc. unfold kept, ascii_isalnum, is_ascii. split_tests.
Qed.

Lemma kept_lower_filename u :
  forallb kept u = true -> forallb filename_char (map ascii_lower u) = true.
Proof.
  induction u as [|c u IH]; simpl; [reflexivity|].
  rewrite !andb_true_iff. intros [Hc Hu]. split; [|auto].
  revert Hc. unfold kept, ascii_isalnum, filename_char, ascii_lower.
  split_tests.
Qed.

Lemma is_empty_map (f : N -> N) u : is_empty (map f u) = is_empty u.
Proof. destruct u; reflexivity. Qed.

Lemma matches_filename_pattern_intro body :
  is_empty body = false -> forallb filename_char body = true ->
  matches_filename_pattern (body ++ str ".html") = true.
Proof.
  intros Hne Hall. unfold matches_filename_pattern.
  rewrite endswith_app.
  change 5%nat with (length (str ".html")).
  rewrite slice_to_last_app, Hne, Hall. reflexivity.
Qed.

Lemma safe_filename_ascii topic :
  is_empty topic = false -> forallb is_ascii topic = true ->
  matches_filename_pattern (safe_filename R topic) = true.
Proof.
  intros Hne Ha. unfold safe_filename, lower.
  pose proof (sub_runs_kept topic false Ha) as Hk.
  rewrite (kept_is_ascii _ Hk).
  apply matches_filename_pattern_intro.
  - rewrite is_empty_map. apply sub_runs_nonempty. exact Hne.
  - apply kept_lower_filename. exact Hk.
Qed.

End FileName.

Section FileNameGeneral.

Variable R : runtime.

Lemma word_kept c :
  ascii_or_not_alnum R c = true -> nonword_or_underscore R c = false ->
  kept c = true.
Proof.
  unfold ascii_or_not_alnum, is_ascii, nonword_or_underscore, is_word,
    isalnum, kept.
  destruct (c <? 128).
  - intros _. destruct (ascii_isalnum c); [reflexivity|]. split_tests.
  - cbn [orb]. intros Hn. apply negb_true_iff in Hn. rewrite Hn.
    split_tests.
Qed.

Lemma sub_runs_kept_general s : forall in_run,
  forallb (ascii_or_not_alnum R) s = true ->
  forallb kept (sub_runs (nonword_or_underscore R) (str "_") in_run s) = true.
Proof.
  induction s as [|c s IH]; intros in_run Hs; simpl in *; [reflexivity|].
  apply andb_true_iff in Hs. destruct Hs as [Hc Hs].
  destruct (nonword_or_underscore R c) eqn:E.
  - rewrite forallb_app, IH by exact Hs.
    destruct in_run; reflexivity.
  - simpl. rewrite IH by exact Hs.
    rewrite (word_kept c Hc E). reflexivity.
Qed.

Lemma safe_filename_general topic :
  is_empty topic = false -> forallb (ascii_or_not_alnum R) topic = true ->
  matches_filename_pattern (safe_filename R topic) = true.
Proof.
  intros Hne Ha. unfold safe_filename, lower.
  pose proof (sub_runs_kept_general topic false Ha) as Hk.
  rewrite (kept_is_ascii _ Hk).
  apply matches_filename_pattern_intro.
  - rewrite is_empty_map. apply sub_runs_nonempty. exact Hne.
  - apply kept_lower_filename. exact Hk.
Qed.

End FileNameGeneral.

(** C5 (amended).  For every non-empty topic whose letters and digits
    are all ASCII (its other characters may be any code points that
    the Unicode table does not count as alphanumeric) the download name
    matches [^[a-z0-9_]+\.html$]; the topic "Preamble: Part I" gives
    "preamble_part_i.html". *)
Theorem safe_filename_matches (R : runtime) (topic : pystr) :
  is_empty topic = false ->
  forallb (ascii_or_not_alnum R) topic = true ->
  matches_filename_pattern (safe_filename R topic) = true
  /\ safe_filename R (str "Preamble: Part I") = str "preamble_part_i.html".
Proof.
  intros Hne Ha. split.
  - apply safe_filename_general; assumption.
  - reflexivity.
Qed.

Lemma safe_filename_matches_witness :
  matches_filename_pattern
    (safe_filename bare_runtime (str "Test " ++ [8212] ++ str " Topic")) = true
  /\ safe_filename bare_runtime (str "Preamble: Part I")
     = str "preamble_part_i.html".
Proof.
  apply (safe_filename_matches bare_runtime
           (str "Test " ++ [8212] ++ str " Topic")); reflexivity.
Defined.

(** C5 as stated fails: whatever the Unicode tables, the example topic
    gives a name without the trailing underscore and the empty topic
    gives ".html"; and with a table that counts U+00E9 as alphanumeric
    that letter is kept in the name. *)
Lemma safe_filename_claim_fails :
  (~ exists R, safe_filename R (str "Preamble: Part I")
               = str "preamble_part_i_.html")
  /\ (~ exists R, matches_filename_pattern (safe_filename R []) = true)
  /\ (~ forall R topic, is_empty topic = false ->
        matches_filename_pattern (safe_filename R topic) = true).
Proof.
  split; [|split].
  - intros [R H]. vm_compute in H. discriminate.
  - intros [R H]. vm_compute in H. discriminate.
  - intros H.
    specialize (H {| rt_isalnum := fun _ => true; rt_lower := fun s => s;
                     rt_format := fun _ => [] |} [233] eq_refl).
    vm_compute in H. discriminate.
Qed.

(** ** Extraction of the video identifier *)

Section VideoId.

Lemma nonempty_run rest :
  negb (is_empty (takewhile id_char rest))
  = match rest with c :: _ => id_char c | [] => false end.
Proof. destruct rest as [|c rest]; simpl; [|destruct (id_char c)]; reflexivity. Qed.

Lemma id_pattern_at_boundary before rest :
  id_pattern_at (before ++ rest) (length before)
  = (endswith before marker_v || endswith before marker_be)
    && negb (is_empty (takewhile id_char rest)).
Proof.
  unfold id_pattern_at.
  rewrite firstn_app, firstn_all, Nat.sub_diag, firstn_O, app_nil_r.
  rewrite nth_error_app2, Nat.sub_diag, nonempty_run by lia.
  destruct rest; reflexivity.
Qed.

(** The scan returns the greedy run at the first position where the
    pattern matches. *)
Lemma search_from_find rest : forall before,
  search_from before rest
  = match find (id_pattern_at (before ++ rest))
            (seq (length before) (S (length rest))) with
    | Some i => Some (takewhile id_char (skipn i (before ++ rest)))
    | None => None
    end.
Proof.
  induction rest as [|c rest IH]; intros before.
  - cbn [search_from length seq find].
    rewrite id_pattern_at_boundary. cbn [takewhile is_empty negb].
    rewrite andb_false_r. reflexivity.
  - cbn [search_from length].
    change (seq (length before) (S (S (length rest))))
      with (length before :: seq (S (length before)) (S (length rest))).
    cbn [find].
    rewrite id_pattern_at_boundary.
    destruct ((endswith before marker_v || endswith before marker_be)
              && negb (is_empty (takewhile id_char (c :: rest)))) eqn:E.
    + rewrite skipn_app, skipn_all, Nat.sub_diag. reflexivity.
    + rewrite IH, <- app_assoc, length_app, Nat.add_1_r. reflexivity.
Qed.

Lemma find_skip (f : nat -> bool) l1 l2 :
  forallb (fun i => negb (f i)) l1 = true -> find f (l1 ++ l2) = find f l2.
Proof.
  induction l1 as [|x l1 IH]; simpl; [reflexivity|].
  rewrite andb_true_iff, negb_true_iff. intros [-> H]. auto.
Qed.

Lemma takewhile_all p s : forallb p s = true -> takewhile p s = s.
Proof.
  induction s as [|c s IH]; simpl; [reflexivity|].
  rewrite andb_true_iff. intros [-> H]. rewrite IH; auto.
Qed.

Lemma search_video_id_at before ID :
  no_match_before (before ++ ID) (length before) = true ->
  endswith before marker_v || endswith before marker_be = true ->
  is_empty ID = false -> forallb id_char ID = true ->
  search_video_id (before ++ ID) = Some ID.
Proof.
  intros Hno Hend Hne Hid. unfold search_video_id.
  rewrite search_from_find. cbn [app length].
  rewrite length_app.
  replace (S (length before + length ID))
    with (length before + S (length ID))%nat by lia.
  rewrite seq_app, find_skip by exact Hno.
  cbn [Nat.add seq find].
  rewrite id_pattern_at_boundary, Hend, (takewhile_all _ _ Hid), Hne.
  cbn [negb andb].
  rewrite skipn_app, skipn_all, Nat.sub_diag. cbn [skipn app].
  rewrite takewhile_all by exact Hid. reflexivity.
Qed.

Lemma search_video_id_none url :
  matches_nowhere url = true -> search_video_id url = None.
Proof.
  unfold matches_nowhere, no_match_before, search_video_id. intros H.
  rewrite search_from_find. cbn [app length].
  rewrite <- (app_nil_r (seq 0 (S (length url)))), find_skip by exact H.
  reflexivity.
Qed.

Lemma alnum_id_char (R : runtime) ID :
  forallb (isalnum R) ID = true -> forallb id_char ID = true.
Proof.
  induction ID as [|c ID IH]; simpl; [reflexivity|].
  rewrite !andb_true_iff. intros [Hc H]. split; [|auto].
  revert Hc. unfold isalnum, ascii_isalnum, id_char. split_tests.
Qed.

End VideoId.

Lemma search_video_id_none_iff (url : pystr) :
  search_video_id url = None <-> matches_nowhere url = true.
Proof.
  split; [|apply search_video_id_none].
  unfold search_video_id, matches_nowhere, no_match_before.
  rewrite search_from_find. cbn [app length].
  destruct (find _ _) eqn:E; [discriminate|]. intros _.
  apply forallb_forall. intros i Hi.
  rewrite (find_none _ _ E i Hi). reflexivity.
Qed.

(** C6 (amended).  For a URL [prefix ++ "watch?v=" ++ ID] or
    [prefix ++ "be/" ++ ID] with [ID] non-empty and alphanumeric, the
    extraction returns exactly [ID], provided the pattern matches at no
    position before [ID]. *)
Theorem search_video_id_exact (R : runtime) (prefix marker ID : pystr) :
  marker = str "watch?v=" \/ marker = str "be/" ->
  is_empty ID = false ->
  forallb (isalnum R) ID = true ->
  no_match_before (prefix ++ marker ++ ID) (length (prefix ++ marker)) = true ->
  search_video_id (prefix ++ marker ++ ID) = Some ID.
Proof.
  intros Hm Hne Hal Hno. rewrite app_assoc in *.
  apply search_video_id_at; auto.
  - destruct Hm as [-> | ->].
    + change (str "watch?v=") with (str "watch?" ++ marker_v).
      rewrite app_assoc, endswith_app. reflexivity.
    + change (str "be/") with marker_be.
      rewrite endswith_app. apply orb_true_r.
  - apply (alnum_id_char R). exact Hal.
Qed.

Lemma search_video_id_exact_witness :
  search_video_id (str "https://www.youtube.com/" ++ str "watch?v=" ++ str "abc123")
  = Some (str "abc123").
Proof.
  apply (search_video_id_exact bare_runtime
           (str "https://www.youtube.com/") (str "watch?v=") (str "abc123"));
    [left; reflexivity | reflexivity | reflexivity | reflexivity].
Defined.

(** C6 as stated fails: in a short-link host followed by a watch path the
    [be/] of the host comes first, and the match starts there. *)
Lemma search_video_id_earlier_marker :
  str "https://youtu.be/watch?v=abc123"
  = str "https://youtu.be/" ++ str "watch?v=" ++ str "abc123"
  /\ is_empty (str "abc123") = false
  /\ forallb ascii_isalnum (str "abc123") = true
  /\ search_video_id (str "https://youtu.be/watch?v=abc123")
     = Some (str "watch?v=abc123")
  /\ search_video_id (str "https://youtu.be/watch?v=abc123")
     <> Some (str "abc123").
Proof. repeat split; try reflexivity. vm_compute. discriminate. Qed.

(** ** [get_youtube_transcript] *)

(** C7.  For a URL in which the identifier pattern matches nowhere,
    [get_youtube_transcript] returns the invalid-URL message next to a
    null transcript, and the transcript service is not called. *)
Theorem invalid_url_no_request (W : services) (url : pystr) :
  matches_nowhere url = true ->
  get_youtube_transcript W url = ([], Ok (None, Some invalid_url_message))
  /\ network_calls (fst (get_youtube_transcript W url)) = [].
Proof.
  intros H. unfold get_youtube_transcript.
  rewrite (search_video_id_none url H). split; reflexivity.
Qed.

Lemma invalid_url_no_request_witness :
  get_youtube_transcript scenario_services (str "https://example.com/video")
  = ([], Ok (None, Some invalid_url_message))
  /\ network_calls
       (fst (get_youtube_transcript scenario_services
               (str "https://example.com/video"))) = [].
Proof.
  apply (invalid_url_no_request scenario_services
           (str "https://example.com/video")).
  reflexivity.
Defined.

Lemma join_spaced (texts : list pystr) : join (str " ") texts = spaced texts.
Proof.
  induction texts as [|x [|y rest] IH]; [reflexivity | |].
  - simpl. symmetry. apply app_nil_r.
  - change (join (str " ") (x :: y :: rest))
      with (x ++ str " " ++ join (str " ") (y :: rest)).
    rewrite IH. reflexivity.
Qed.

(** C8.  When the identifier is found and the service returns a list of
    caption records, the function returns their texts in order with one
    space between consecutive texts, and a null error; for the empty
    list the text is the empty string. *)
Theorem transcript_joined (W : services) (url video_id : pystr)
  (fragments : list fragment) :
  search_video_id url = Some video_id ->
  get_transcript W video_id = Ok fragments ->
  get_youtube_transcript W url
  = ([TranscriptRequest video_id], Ok (Some (spaced (map text fragments)), None))
  /\ (fragments = [] ->
      get_youtube_transcript W url
      = ([TranscriptRequest video_id], Ok (Some [], None))).
Proof.
  intros Hid Hok.
  assert (E : get_youtube_transcript W url
    = ([TranscriptRequest video_id], Ok (Some (spaced (map text fragments)), None))).
  { unfold get_youtube_transcript. rewrite Hid.
    unfold bind, emit, lift, ret, try_except. rewrite Hok.
    rewrite join_spaced. reflexivity. }
  split; [exact E | intros ->; exact E].
Qed.

Lemma transcript_joined_witness :
  get_youtube_transcript scenario_services scenario_url
  = ([TranscriptRequest (str "abc123")], Ok (Some (str "Hello World"), None)).
Proof.
  apply (transcript_joined scenario_services scenario_url (str "abc123")
           [ {| text := str "Hello" |}; {| text := str "World" |} ]);
    reflexivity.
Defined.

(** ** Return convention of the two fallible stages *)

Section Stages.

Variable R : runtime.
Variable W : services.

Lemma get_youtube_transcript_cases url :
  get_youtube_transcript W url
  = match search_video_id url with
    | None => ([], Ok (None, Some invalid_url_message))
    | Some video_id =>
        ([TranscriptRequest video_id],
         match get_transcript W video_id with
         | Ok fragments => Ok (Some (spaced (map text fragments)), None)
         | Raise e =>
             if is_exception e
             then Ok (None, Some (transcript_error_message e))
             else Raise e
         end)
    end.
Proof.
  unfold get_youtube_transcript.
  destruct (search_video_id url) as [video_id|]; [|reflexivity].
  unfold bind, emit, lift, ret, try_except.
  destruct (get_transcript W video_id) as [fragments|e].
  - rewrite join_spaced. reflexivity.
  - destruct (is_exception e); reflexivity.
Qed.

Lemma generate_mind_map_markdown_cases api_key topic transcript :
  generate_mind_map_markdown R W api_key topic transcript
  = let prompt := prompt_for topic (format_value R (opt_value transcript)) in
    ([GenerationRequest api_key prompt],
     match generate_content W api_key prompt with
     | Ok response_text => Ok (Some (clean_response response_text), None)
     | Raise e =>
         if is_exception e
         then Ok (None, Some (generation_error_message e))
         else Raise e
     end).
Proof.
  unfold generate_mind_map_markdown. cbv zeta.
  assert (Hr : render R [("api_key", VStr api_key); ("topic", VStr topic);
                         ("transcript", opt_value transcript);
                         ("model", VObj "model")]%string
                 module_globals prompt_template
               = Ok (prompt_for topic (format_value R (opt_value transcript)))).
  { unfold prompt_template, prompt_for.
    generalize prompt_head, prompt_middle, prompt_tail. intros h0 h1 h2.
    destruct transcript as [tr|]; cbn; rewrite app_nil_r; reflexivity. }
  rewrite Hr. unfold bind, emit, lift, ret, try_except.
  destruct (generate_content W api_key _) as [response_text|e];
    [reflexivity|].
  destruct (is_exception e); reflexivity.
Qed.

End Stages.

(** C10 (amended).  [get_youtube_transcript] returns (text, null)
    exactly when the identifier is found and the transcript service
    returns, and (null, message) when the identifier is missing or the
    service raises an exception of class [Exception];
    [generate_mind_map_markdown] returns (text, null) when the
    generation service returns and (null, message) when it raises an
    exception of class [Exception].  An exception of another class
    raised by a service goes through the function.  Hence every pair
    that either function returns has exactly one null component. *)
Theorem stages_return_one_null (R : runtime) (W : services)
  (url api_key topic : pystr) (transcript : option pystr) :
  snd (get_youtube_transcript W url)
  = match search_video_id url with
    | None => Ok (None, Some invalid_url_message)
    | Some video_id =>
        match get_transcript W video_id with
        | Ok fragments => Ok (Some (spaced (map text fragments)), None)
        | Raise e =>
            if is_exception e
            then Ok (None, Some (transcript_error_message e))
            else Raise e
        end
    end
  /\ snd (generate_mind_map_markdown R W api_key topic transcript)
     = match generate_content W api_key
               (prompt_for topic
                  match transcript with Some t => t | None => str "None" end)
       with
       | Ok response_text => Ok (Some (clean_response response_text), None)
       | Raise e =>
           if is_exception e
           then Ok (None, Some (generation_error_message e))
           else Raise e
       end
  /\ (forall p,
        snd (get_youtube_transcript W url) = Ok p
        \/ snd (generate_mind_map_markdown R W api_key topic transcript) = Ok p ->
        exactly_one_null p = true).
Proof.
  rewrite get_youtube_transcript_cases, generate_mind_map_markdown_cases.
  cbv zeta.
  replace (format_value R (opt_value transcript))
    with (match transcript with Some t => t | None => str "None" end)
    by (destruct transcript; reflexivity).
  split; [|split].
  - destruct (search_video_id url); reflexivity.
  - reflexivity.
  - intros p [H | H].
    + destruct (search_video_id url) as [video_id|]; cbn [snd] in H.
      * destruct (get_transcript W video_id) as [fragments|e];
          [|destruct (is_exception e)]; inversion H; reflexivity.
      * inversion H; reflexivity.
    + cbn [snd] in H.
      destruct (generate_content W api_key _) as [response_text|e];
        [|destruct (is_exception e)]; inversion H; reflexivity.
Qed.

(** C10 as stated fails: a service interrupted from the keyboard raises
    an exception that [except Exception] does not handle, and neither
    function returns a pair. *)
Lemma stage_interrupted_returns_no_pair :
  snd (get_youtube_transcript interrupted_services scenario_url)
  = Raise (BaseOnly "KeyboardInterrupt" [])
  /\ (~ exists p,
        snd (get_youtube_transcript interrupted_services scenario_url) = Ok p)
  /\ snd (generate_mind_map_markdown bare_runtime interrupted_services
            (str "test-key") scenario_topic (Some (str "Hello World")))
     = Raise (BaseOnly "KeyboardInterrupt" [])
  /\ (~ exists p,
        snd (generate_mind_map_markdown bare_runtime interrupted_services
               (str "test-key") scenario_topic (Some (str "Hello World")))
        = Ok p).
Proof.
  repeat split; try reflexivity; intros [p H]; discriminate.
Qed.

(** ** Validation of the form *)

(** C9.  With the Generate button pressed and one of the three inputs
    empty, the run shows one error message, the one of the first empty
    input, and ends there: nothing is requested from either service.
    The three messages are pairwise different; an empty credential gives
    the credential message whatever the other fields are. *)
Theorem missing_input_aborts (R : runtime) (W : services)
  (api_key video_topic youtube_url : pystr) :
  is_empty api_key || is_empty video_topic || is_empty youtube_url = true ->
  main R W api_key video_topic youtube_url true
  = ([StError (if is_empty api_key then missing_key_message
               else if is_empty video_topic then missing_topic_message
               else missing_url_message)], Ok tt)
  /\ network_calls (fst (main R W api_key video_topic youtube_url true)) = []
  /\ (is_empty api_key = true ->
      fst (main R W api_key video_topic youtube_url true)
      = [StError missing_key_message])
  /\ missing_key_message <> missing_topic_message
  /\ missing_key_message <> missing_url_message
  /\ missing_topic_message <> missing_url_message.
Proof.
  intros H. unfold main.
  destruct (is_empty api_key); [|destruct (is_empty video_topic);
    [|destruct (is_empty youtube_url); [|discriminate]]];
  repeat split; try reflexivity; try discriminate.
Qed.

Lemma missing_input_aborts_witness :
  main bare_runtime scenario_services [] scenario_topic scenario_url true
  = ([StError missing_key_message], Ok tt).
Proof.
  apply (missing_input_aborts bare_runtime scenario_services
           [] scenario_topic scenario_url).
  reflexivity.
Defined.

(** ** [create_markmap_html] *)

(** C2 fails on the code: three replacement fields of the template hold
    JavaScript destructuring patterns whose braces are not doubled, and
    the first of them names [Transformer], bound nowhere; every call
    raises [NameError]. *)
Theorem create_markmap_html_raises (R : runtime) (topic : pystr)
  (markdown_content : option pystr) :
  create_markmap_html R topic markdown_content
  = Raise (NameError "Transformer").
Proof. reflexivity. Qed.

Lemma json_dumps_app (a b c : pystr) :
  json_dumps (Some (a ++ b ++ c))
  = dq ++ flat_map json_escape a ++ flat_map json_escape b
    ++ flat_map json_escape c ++ dq.
Proof.
  unfold json_dumps. rewrite !flat_map_app, <- !app_assoc. reflexivity.
Qed.

(** [json.dumps] copies an end tag of the script element as it is. *)
Lemma json_dumps_keeps_script_end (a c : pystr) :
  json_dumps (Some (a ++ str "</script>" ++ c))
  = dq ++ flat_map json_escape a ++ str "</script>"
    ++ flat_map json_escape c ++ dq.
Proof. rewrite json_dumps_app. reflexivity. Qed.

(** C3 fails on the code at the Markdown text [</script>]: no document is
    returned, and the literal that [json.dumps] builds for the template
    holds the end tag unescaped. *)
Theorem script_end_not_escaped (R : runtime) (topic : pystr) :
  create_markmap_html R topic (Some (str "</script>"))
  = Raise (NameError "Transformer")
  /\ json_dumps (Some (str "</script>")) = dq ++ str "</script>" ++ dq
  /\ contains (json_dumps (Some (str "</script>"))) (str "</script>") = true.
Proof. repeat split. Qed.

(** ** The whole run *)

(** C1 fails on the code: in the scenario the cleaned Markdown keeps the
    last letter of the fence tag as a first line, and the run ends with
    the [NameError] of the template before any download is offered. *)
Theorem end_to_end_scenario (R : runtime) :
  snd (main R scenario_services (str "test-key") scenario_topic scenario_url true)
  = Raise (NameError "Transformer")
  /\ existsb is_download
       (fst (main R scenario_services (str "test-key") scenario_topic
               scenario_url true)) = false
  /\ fst (main R scenario_services (str "test-key") scenario_topic
            scenario_url true)
     = [TranscriptRequest (str "abc123");
        StSuccess (check_mark ++ str " Transcript extracted successfully!");
        GenerationRequest (str "test-key")
          (prompt_head ++ scenario_topic ++ prompt_middle
           ++ str "Hello World" ++ prompt_tail);
        StSuccess (check_mark ++ str " Mind map generated successfully!")]
  /\ snd (generate_mind_map_markdown R scenario_services (str "test-key")
            scenario_topic (Some (str "Hello World")))
     = Ok (Some (str "n" ++ nl ++ scenario_markdown), None)
  /\ clean_response scenario_response <> scenario_markdown
  /\ safe_filename R scenario_topic = str "test_topic.html".
Proof.
  repeat split; try reflexivity. vm_compute. discriminate.
Qed.

(** Were the eight names of the three destructuring fields bound, the
    template would render, with the literal of [json.dumps] placed as
    the argument of [transformer.transform]. *)
Lemma html_template_with_names_bound (R : runtime) (topic : pystr)
  (markdown_content : option pystr) (v : value) :
  let globals :=
    module_globals
    ++ map (fun id => (id, v))
         ["Transformer"; "Markmap"; "loadCSS"; "loadJS"; "root"; "features";
          "styles"; "scripts"]%string in
  render R [("topic", VStr topic);
            ("markdown_content", opt_value markdown_content);
            ("escaped_markdown", VStr (json_dumps markdown_content))]%string
    globals html_template
  = Ok (html_head ++ topic ++ html_after_title
        ++ rt_format R (VTuple [v; v; v; v]) ++ html_after_names
        ++ rt_format R (VTuple [v; v]) ++ html_before_markdown
        ++ json_dumps markdown_content ++ html_after_markdown
        ++ rt_format R (VTuple [v; v]) ++ html_tail).
Proof.
  cbv zeta. unfold html_template.
  generalize html_head, html_after_title, html_after_names,
    html_before_markdown, html_after_markdown, html_tail,
    (json_dumps markdown_content).
  intros h0 h1 h2 h3 h4 h5 j. cbn. rewrite app_nil_r. reflexivity.
Qed.

(** ** Worked examples *)

Example clean_response_scenario :
  clean_response scenario_response = str "n" ++ nl ++ scenario_markdown.
Proof. reflexivity. Qed.

Example clean_response_plain_fence :
  clean_response (str "```" ++ nl ++ str "# T" ++ nl ++ str "```")
  = str "```" ++ nl ++ str "# T".
Proof. reflexivity. Qed.

Example search_video_id_short_link :
  search_video_id (str "https://youtu.be/abc123?t=1#x") = Some (str "abc123?t=1").
Proof. reflexivity. Qed.

Example search_video_id_extra_parameter :
  search_video_id (str "https://www.youtube.com/watch?v=abc123&t=42s")
  = Some (str "abc123").
Proof. reflexivity. Qed.

Example json_dumps_escapes :
  json_dumps (Some ([34; 92; 10; 9; 1; 127; 233; 128512]))
  = dq ++ backslash ++ dq ++ backslash ++ backslash
    ++ backslash ++ str "n" ++ backslash ++ str "t"
    ++ backslash ++ str "u0001" ++ backslash ++ str "u007f"
    ++ backslash ++ str "u00e9"
    ++ backslash ++ str "ud83d" ++ backslash ++ str "ude00" ++ dq.
Proof. reflexivity. Qed.

Example transcript_service_failure :
  get_youtube_transcript
    {| get_transcript := fun _ => Raise (ServiceError (str "disabled"));
       generate_content := fun _ _ => Ok [] |}
    scenario_url
  = ([TranscriptRequest (str "abc123")],
     Ok (None, Some (transcript_error_message (ServiceError (str "disabled"))))).
Proof. reflexivity. Qed.

Example empty_transcript_is_success :
  get_youtube_transcript
    {| get_transcript := fun _ => Ok [];
       generate_content := fun _ _ => Ok [] |}
    scenario_url
  = ([TranscriptRequest (str "abc123")], Ok (Some [], None)).
Proof. reflexivity. Qed.

(** * Further properties *)

(** ** Cleanup of the response, continued *)

Section CleanupMore.

Lemma substring_refl s : substring s s.
Proof. exists [], []. rewrite app_nil_r. reflexivity. Qed.

Lemma substring_trans t u s : substring t u -> substring u s -> substring t s.
Proof.
  intros [a [b ->]] [a' [b' ->]]. exists (a' ++ a), (b ++ b').
  rewrite <- !app_assoc. reflexivity.
Qed.

Lemma strip_substring s : substring (strip s) s.
Proof.
  unfold strip, lstrip.
  destruct (dropwhile_split isspace s) as [w [Hw _]].
  destruct (rstrip_prefix (dropwhile isspace s)) as [w' Hw'].
  exists w, w'. rewrite <- Hw'. exact Hw.
Qed.

Lemma slice_from_substring n s : substring (slice_from n s) s.
Proof.
  exists (firstn n s), []. unfold slice_from.
  rewrite app_nil_r. symmetry. apply firstn_skipn.
Qed.

Lemma slice_to_last_substring n s : substring (slice_to_last n s) s.
Proof.
  destruct (firstn_prefix (length s - n) s) as [w Hw].
  exists [], w. exact Hw.
Qed.

Lemma strip_clean_last s : clean_head (rev (strip s)).
Proof.
  unfold strip, rstrip. rewrite rev_involutive. apply dropwhile_clean_head.
Qed.

Lemma clean_response_is_strip raw : exists x, clean_response raw = strip x.
Proof. unfold clean_response. eexists. reflexivity. Qed.

End CleanupMore.

(** X1.  The cleanup only trims: the cleaned text occurs in the response
    as one run of consecutive characters. *)
Theorem clean_response_substring (raw : pystr) :
  substring (clean_response raw) raw.
Proof.
  unfold clean_response.
  eapply substring_trans; [apply strip_substring|].
  destruct (endswith _ fence_close).
  - eapply substring_trans; [apply slice_to_last_substring|].
    destruct (startswith _ fence_open).
    + eapply substring_trans; [apply slice_from_substring | apply strip_substring].
    + apply strip_substring.
  - destruct (startswith _ fence_open).
    + eapply substring_trans; [apply slice_from_substring | apply strip_substring].
    + apply strip_substring.
Qed.

(** X2.  The cleaned text neither starts nor ends with a white-space
    character. *)
Theorem clean_response_trimmed (raw : pystr) :
  (forall c rest, clean_response raw = c :: rest -> isspace c = false)
  /\ (forall front c, clean_response raw = front ++ [c] -> isspace c = false).
Proof.
  destruct (clean_response_is_strip raw) as [x Hx]. rewrite Hx. split.
  - intros c rest H. pose proof (strip_clean_head x) as Hc.
    rewrite H in Hc. exact Hc.
  - intros front c H. pose proof (strip_clean_last x) as Hc.
    rewrite H, rev_app_distr in Hc. exact Hc.
Qed.

(** X3.  Whenever the stripped response starts with the opening fence
    [```markdown], the cleaned text starts with the letter [n]: the
    slice drops ten of the eleven characters of the fence. *)
Theorem clean_response_keeps_fence_letter (raw : pystr) :
  startswith (strip raw) fence_open = true ->
  exists rest, clean_response raw = 110 :: rest.
Proof.
  intros Ho. unfold clean_response. cbv zeta. rewrite Ho.
  apply startswith_spec in Ho. destruct Ho as [r Hr].
  assert (H10 : slice_from 10 (strip raw) = 110 :: r)
    by (rewrite Hr; reflexivity).
  rewrite H10.
  destruct (endswith (110 :: r) fence_close) eqn:He.
  - apply endswith_spec in He. destruct He as [a Ha].
    destruct a as [|x a]; [discriminate|].
    injection Ha as Hx Hrest. subst x r.
    change (110 :: a ++ fence_close) with ((110 :: a) ++ fence_close).
    change 3%nat with (length fence_close).
    rewrite slice_to_last_app.
    apply strip_cons_nonspace. reflexivity.
  - apply strip_cons_nonspace. reflexivity.
Qed.

Lemma clean_response_keeps_fence_letter_witness :
  exists rest, clean_response scenario_response = 110 :: rest.
Proof.
  apply (clean_response_keeps_fence_letter scenario_response). reflexivity.
Defined.

(** X4.  Whatever the response, the cleaned text does not start with
    the opening fence [```markdown]. *)
Theorem clean_response_never_fenced (raw : pystr) :
  startswith (clean_response raw) fence_open = false.
Proof. exact (clean_response_no_open_fence raw). Qed.

(** ** [json.dumps], continued *)

Section JsonMore.

Lemma hex_digit_facts d :
  d < 16 -> is_hex (hex_digit d) = true /\ printable (hex_digit d) = true.
Proof.
  intros Hd. unfold hex_digit, is_hex, printable.
  destruct (N.ltb_spec d 10); split;
    repeat match goal with
      | |- context [N.leb ?a ?b] => destruct (N.leb_spec a b)
      end;
    cbn [andb orb]; try reflexivity; lia.
Qed.

Lemma hex4_facts n :
  exists h1 h2 h3 h4,
    hex4 n = [h1; h2; h3; h4]
    /\ is_hex h1 && is_hex h2 && is_hex h3 && is_hex h4 = true
    /\ forallb printable [h1; h2; h3; h4] = true.
Proof.
  unfold hex4. do 4 eexists. split; [reflexivity|].
  assert (Hm : forall m, m mod 16 < 16) by (intros m; apply N.mod_lt; lia).
  destruct (hex_digit_facts _ (Hm (n / 4096))) as [-> E1].
  destruct (hex_digit_facts _ (Hm (n / 256))) as [-> E2].
  destruct (hex_digit_facts _ (Hm (n / 16))) as [-> E3].
  destruct (hex_digit_facts _ (Hm n)) as [-> E4].
  cbn [forallb]. rewrite E1, E2, E3, E4. split; reflexivity.
Qed.

Lemma u_escape_body n rest :
  json_string_body (u_escape n ++ rest) = json_string_body rest.
Proof.
  unfold u_escape. destruct (hex4_facts n) as (h1 & h2 & h3 & h4 & -> & H & _).
  change (json_string_body (92 :: 117 :: h1 :: h2 :: h3 :: h4 :: rest)
          = json_string_body rest).
  cbn [json_string_body]. change (92 =? 92) with true.
  change (117 =? 117) with true. cbv iota. rewrite H. reflexivity.
Qed.

Lemma u_escape_printable n : forallb printable (u_escape n) = true.
Proof.
  unfold u_escape. destruct (hex4_facts n) as (h1 & h2 & h3 & h4 & -> & _ & H).
  change (forallb printable (92 :: 117 :: [h1; h2; h3; h4]) = true).
  cbn [forallb] in *. rewrite H. reflexivity.
Qed.

(** The forms an escaped code point takes. *)
Lemma json_escape_forms c :
  (exists e, json_escape c = [92; e] /\ simple_escape e = true
             /\ printable e = true)
  \/ (json_escape c = [c] /\ plain c = true)
  \/ (exists n, json_escape c = u_escape n)
  \/ (exists n m, json_escape c = u_escape n ++ u_escape m).
Proof.
  unfold json_escape.
  destruct (N.eqb_spec c 92); [left; exists 92; repeat split|].
  destruct (N.eqb_spec c 34); [left; exists 34; repeat split|].
  destruct (N.eqb_spec c 8); [left; exists 98; repeat split|].
  destruct (N.eqb_spec c 12); [left; exists 102; repeat split|].
  destruct (N.eqb_spec c 10); [left; exists 110; repeat split|].
  destruct (N.eqb_spec c 13); [left; exists 114; repeat split|].
  destruct (N.eqb_spec c 9); [left; exists 116; repeat split|].
  destruct ((32 <=? c) && (c <=? 126)) eqn:E.
  - right; left. split; [reflexivity|].
    unfold plain, printable. rewrite E.
    destruct (N.eqb_spec c 34); [contradiction|].
    destruct (N.eqb_spec c 92); [contradiction|]. reflexivity.
  - destruct (c <? 65536).
    + right; right; left. eauto.
    + right; right; right. eauto.
Qed.

Lemma json_escape_body c rest :
  json_string_body (json_escape c ++ rest) = json_string_body rest.
Proof.
  destruct (json_escape_forms c)
    as [(e & -> & He & _) | [[-> Hp] | [[n ->] | (n & m & ->)]]].
  - change (json_string_body (92 :: e :: rest) = json_string_body rest).
    cbn [json_string_body]. change (92 =? 92) with true. cbv iota.
    destruct (N.eqb_spec e 117); [subst e; discriminate|].
    rewrite He. reflexivity.
  - change (json_string_body (c :: rest) = json_string_body rest).
    cbn [json_string_body]. revert Hp. unfold plain, printable.
    destruct (N.eqb_spec c 92); [rewrite andb_false_r; discriminate|].
    destruct (N.leb_spec 32 c); [|discriminate].
    destruct (N.eqb_spec c 34);
      [rewrite andb_false_r; discriminate | reflexivity].
  - apply u_escape_body.
  - rewrite <- app_assoc, !u_escape_body. reflexivity.
Qed.

Lemma json_escape_printable c : forallb printable (json_escape c) = true.
Proof.
  destruct (json_escape_forms c)
    as [(e & -> & _ & He) | [[-> Hp] | [[n ->] | (n & m & ->)]]].
  - cbn [forallb]. rewrite He. reflexivity.
  - cbn [forallb]. unfold plain in Hp.
    destruct (printable c); [reflexivity | discriminate].
  - apply u_escape_printable.
  - rewrite forallb_app, !u_escape_printable. reflexivity.
Qed.

Lemma flat_map_escape_body s : json_string_body (flat_map json_escape s) = true.
Proof.
  induction s as [|c s IH]; [reflexivity|].
  cbn [flat_map]. rewrite json_escape_body. exact IH.
Qed.

Lemma flat_map_escape_printable s :
  forallb printable (flat_map json_escape s) = true.
Proof.
  induction s as [|c s IH]; [reflexivity|].
  cbn [flat_map]. rewrite forallb_app, json_escape_printable. exact IH.
Qed.

Lemma json_escape_plain c : plain c = true -> json_escape c = [c].
Proof.
  unfold plain, printable, json_escape. intros H.
  destruct (N.eqb_spec c 92); [rewrite andb_false_r in H; discriminate|].
  destruct (N.eqb_spec c 34); [rewrite andb_false_r in H; discriminate|].
  rewrite !andb_true_r in H.
  destruct (N.eqb_spec c 8); [subst; discriminate|].
  destruct (N.eqb_spec c 12); [subst; discriminate|].
  destruct (N.eqb_spec c 10); [subst; discriminate|].
  destruct (N.eqb_spec c 13); [subst; discriminate|].
  destruct (N.eqb_spec c 9); [subst; discriminate|].
  rewrite H. reflexivity.
Qed.

End JsonMore.

(** X5.  The text that [json.dumps] returns holds printable ASCII
    characters only, whatever the code points of the Markdown. *)
Theorem json_dumps_printable (obj : option pystr) :
  forallb printable (json_dumps obj) = true.
Proof.
  destruct obj as [s|]; [|reflexivity].
  unfold json_dumps. rewrite !forallb_app, flat_map_escape_printable.
  reflexivity.
Qed.

(** X6.  For a string, [json.dumps] returns a well-formed JSON string
    token: a double quote, a body in which quotes, backslashes and
    control characters occur only inside escapes, and a double quote. *)
Theorem json_dumps_well_formed (s : pystr) :
  exists body,
    json_dumps (Some s) = dq ++ body ++ dq
    /\ json_string_body body = true.
Proof.
  exists (flat_map json_escape s). split; [reflexivity|].
  apply flat_map_escape_body.
Qed.

(** X7.  A Markdown text made of printable ASCII characters other than
    the double quote and the backslash is embedded unchanged between
    two double quotes; in particular [<], [/] and [>] are not escaped. *)
Theorem json_dumps_verbatim (s : pystr) :
  forallb plain s = true ->
  json_dumps (Some s) = dq ++ s ++ dq
  /\ plain 60 && plain 47 && plain 62 = true.
Proof.
  intros H. split; [|reflexivity]. unfold json_dumps. do 2 f_equal.
  induction s as [|c s IH]; [reflexivity|].
  cbn [forallb] in H. apply andb_true_iff in H. destruct H as [Hc Hs].
  cbn [flat_map]. rewrite (json_escape_plain c Hc), (IH Hs). reflexivity.
Qed.

Lemma json_dumps_verbatim_witness :
  json_dumps (Some (str "<b>bold</b> - A")) = dq ++ str "<b>bold</b> - A" ++ dq
  /\ plain 60 && plain 47 && plain 62 = true.
Proof. apply (json_dumps_verbatim (str "<b>bold</b> - A")). reflexivity. Defined.

(** ** File name of the download, continued *)

Section FileNameMore.

Variable R : runtime.

Local Abbreviation cls := (nonword_or_underscore R).
Local Abbreviation uu := (str "__").

Lemma starts_underscore x :
  startswith x [95] = match x with [] => false | d :: _ => d =? 95 end.
Proof. destruct x as [|d x]; [reflexivity|]. cbn. apply andb_true_r. Qed.

Lemma contains_uu_cons c x :
  contains (c :: x) uu = ((c =? 95) && startswith x [95]) || contains x uu.
Proof. reflexivity. Qed.

Lemma cls_underscore c : cls c = false -> (c =? 95) = false.
Proof.
  unfold cls, nonword_or_underscore.
  destruct (c =? 95); [rewrite orb_true_r; discriminate | reflexivity].
Qed.

Lemma sub_runs_single s : forall in_run,
  contains (sub_runs cls (str "_") in_run s) uu = false
  /\ (in_run = true -> startswith (sub_runs cls (str "_") in_run s) [95] = false).
Proof.
  induction s as [|c s IH]; intros in_run.
  - split; reflexivity.
  - cbn [sub_runs]. destruct (cls c) eqn:E.
    + destruct (IH true) as [H1 H2]. destruct in_run.
      * cbn [app]. split; [exact H1 | intros _; apply H2; reflexivity].
      * change (str "_" ++ sub_runs cls (str "_") true s)
          with (95 :: sub_runs cls (str "_") true s).
        rewrite contains_uu_cons, H1, (H2 eq_refl), andb_false_r.
        split; [reflexivity | discriminate].
    + destruct (IH false) as [H1 _].
      rewrite contains_uu_cons, H1, (cls_underscore c E).
      split; [reflexivity|]. intros _. rewrite starts_underscore.
      apply (cls_underscore c E).
Qed.

Lemma ascii_lower_underscore c : (ascii_lower c =? 95) = (c =? 95).
Proof. unfold ascii_lower. split_tests. Qed.

Lemma starts_underscore_map x :
  startswith (map ascii_lower x) [95] = startswith x [95].
Proof.
  rewrite !starts_underscore. destruct x as [|d x]; [reflexivity|].
  apply ascii_lower_underscore.
Qed.

Lemma contains_uu_map x :
  contains (map ascii_lower x) uu = contains x uu.
Proof.
  induction x as [|c x IH]; [reflexivity|].
  cbn [map]. rewrite !contains_uu_cons, IH, ascii_lower_underscore,
    starts_underscore_map. reflexivity.
Qed.

Lemma contains_uu_suffix x :
  contains x uu = false -> contains (x ++ str ".html") uu = false.
Proof.
  induction x as [|c x IH]; [reflexivity|].
  cbn [app]. rewrite !contains_uu_cons, !orb_false_iff.
  intros [H1 H2]. split; [|auto].
  destruct x as [|d x]; [|exact H1].
  cbn [app]. rewrite starts_underscore. apply andb_false_r.
Qed.

Lemma cls_not_alnum c :
  is_ascii c = true -> cls c = true -> ascii_isalnum c = false.
Proof.
  unfold cls, nonword_or_underscore, is_word, isalnum, is_ascii.
  intros ->. unfold ascii_isalnum. split_tests.
Qed.

Lemma sub_runs_alnum s : forall in_run,
  forallb is_ascii s = true ->
  filter ascii_isalnum (sub_runs cls (str "_") in_run s)
  = filter ascii_isalnum s.
Proof.
  induction s as [|c s IH]; intros in_run Hs; [reflexivity|].
  cbn [forallb] in Hs. apply andb_true_iff in Hs. destruct Hs as [Hc Hs].
  cbn [sub_runs filter]. destruct (cls c) eqn:E.
  - rewrite (cls_not_alnum c Hc E), filter_app, (IH true Hs).
    destruct in_run; reflexivity.
  - cbn [filter]. rewrite (IH false Hs). reflexivity.
Qed.

Lemma ascii_lower_alnum c : ascii_isalnum (ascii_lower c) = ascii_isalnum c.
Proof. unfold ascii_isalnum, ascii_lower. split_tests. Qed.

Lemma filter_alnum_lower x :
  filter ascii_isalnum (map ascii_lower x)
  = map ascii_lower (filter ascii_isalnum x).
Proof.
  induction x as [|c x IH]; [reflexivity|].
  cbn [map filter]. rewrite ascii_lower_alnum, IH.
  destruct (ascii_isalnum c); reflexivity.
Qed.

Lemma safe_filename_ascii_form topic :
  forallb is_ascii topic = true ->
  safe_filename R topic
  = map ascii_lower (sub_runs cls (str "_") false topic) ++ str ".html".
Proof.
  intros Ha. unfold safe_filename, lower.
  rewrite (kept_is_ascii _ (sub_runs_kept R topic false Ha)). reflexivity.
Qed.

End FileNameMore.

(** X8.  For a topic of ASCII characters the download name never holds
    two underscores in a row: each run of characters that are not
    letters or digits, underscores included, gives one underscore. *)
Theorem safe_filename_single_underscores (R : runtime) (topic : pystr) :
  forallb is_ascii topic = true ->
  contains (safe_filename R topic) (str "__") = false.
Proof.
  intros Ha. rewrite (safe_filename_ascii_form R topic Ha).
  apply contains_uu_suffix. rewrite contains_uu_map.
  apply (sub_runs_single R topic false).
Qed.

Lemma safe_filename_single_underscores_witness :
  contains (safe_filename bare_runtime (str "a -- __ b__c")) (str "__") = false.
Proof.
  apply (safe_filename_single_underscores bare_runtime (str "a -- __ b__c")).
  reflexivity.
Defined.

(** X9.  For a topic of ASCII characters the download name is a body
    followed by [.html], and the letters and digits of the body are
    those of the topic, in the same order, in lower case: the
    sanitizing drops no letter and no digit. *)
Theorem safe_filename_keeps_alnum (R : runtime) (topic : pystr) :
  forallb is_ascii topic = true ->
  exists body,
    safe_filename R topic = body ++ str ".html"
    /\ filter ascii_isalnum body
       = map ascii_lower (filter ascii_isalnum topic).
Proof.
  intros Ha. rewrite (safe_filename_ascii_form R topic Ha).
  eexists. split; [reflexivity|].
  rewrite filter_alnum_lower, (sub_runs_alnum R topic false Ha). reflexivity.
Qed.

Lemma safe_filename_keeps_alnum_witness :
  exists body,
    safe_filename bare_runtime (str "Preamble: Part I") = body ++ str ".html"
    /\ filter ascii_isalnum body
       = map ascii_lower (filter ascii_isalnum (str "Preamble: Part I")).
Proof.
  apply (safe_filename_keeps_alnum bare_runtime (str "Preamble: Part I")).
  reflexivity.
Defined.

(** ** Extraction of the video identifier, continued *)

Section VideoIdMore.

Lemma takewhile_split p s :
  exists rest,
    s = takewhile p s ++ rest
    /\ forallb p (takewhile p s) = true
    /\ match rest with [] => true | d :: _ => negb (p d) end = true.
Proof.
  induction s as [|c s (rest & H1 & H2 & H3)]; cbn [takewhile].
  - exists []. repeat split.
  - destruct (p c) eqn:E.
    + exists rest. cbn [app forallb]. rewrite E, H2.
      repeat split; [congruence | exact H3].
    + exists (c :: s). cbn. rewrite E. repeat split.
Qed.

Lemma takewhile_stop p ID tail :
  forallb p ID = true ->
  match tail with [] => true | d :: _ => negb (p d) end = true ->
  takewhile p (ID ++ tail) = ID.
Proof.
  intros Hid Ht. induction ID as [|c ID IH]; cbn [app takewhile].
  - destruct tail as [|d tail]; [reflexivity|].
    cbn [takewhile]. apply negb_true_iff in Ht. rewrite Ht. reflexivity.
  - cbn [forallb] in Hid. apply andb_true_iff in Hid.
    destruct Hid as [-> Hid]. rewrite (IH Hid). reflexivity.
Qed.

Lemma search_from_sound rest : forall before id,
  search_from before rest = Some id ->
  is_empty id = false
  /\ forallb id_char id = true
  /\ exists a b,
       before ++ rest = a ++ id ++ b
       /\ endswith a marker_v || endswith a marker_be = true
       /\ match b with [] => true | d :: _ => negb (id_char d) end = true.
Proof.
  induction rest as [|c rest IH]; intros before id; cbn [search_from].
  - cbn [takewhile is_empty negb]. rewrite andb_false_r. discriminate.
  - destruct ((endswith before marker_v || endswith before marker_be)
              && negb (is_empty (takewhile id_char (c :: rest)))) eqn:E.
    + intros H. injection H as <-.
      apply andb_true_iff in E. destruct E as [E1 E2].
      apply negb_true_iff in E2.
      destruct (takewhile_split id_char (c :: rest)) as (b & H1 & H2 & H3).
      split; [exact E2|]. split; [exact H2|].
      exists before, b. split; [f_equal; exact H1 | auto].
    + intros H. destruct (IH _ _ H) as (H1 & H2 & a & b & H3 & H4).
      split; [exact H1|]. split; [exact H2|].
      exists a, b. rewrite <- app_assoc in H3. auto.
Qed.

End VideoIdMore.

(** X10.  An identifier returned by the extraction is never empty and
    holds neither [&] nor [#]; it stands in the URL right after [v=] or
    [be/] and runs to the end of the URL or to the next [&] or [#]. *)
Theorem search_video_id_sound (url id : pystr) :
  search_video_id url = Some id ->
  is_empty id = false
  /\ forallb id_char id = true
  /\ exists a b,
       url = a ++ id ++ b
       /\ endswith a marker_v || endswith a marker_be = true
       /\ match b with [] => true | d :: _ => negb (id_char d) end = true.
Proof. intros H. exact (search_from_sound url [] id H). Qed.

Lemma search_video_id_sound_witness :
  is_empty (str "abc123") = false
  /\ forallb id_char (str "abc123") = true
  /\ exists a b,
       str "https://www.youtube.com/watch?v=abc123&t=42s"
       = a ++ str "abc123" ++ b
       /\ endswith a marker_v || endswith a marker_be = true
       /\ match b with [] => true | d :: _ => negb (id_char d) end = true.
Proof.
  apply (search_video_id_sound
           (str "https://www.youtube.com/watch?v=abc123&t=42s") (str "abc123")).
  reflexivity.
Defined.

(** X11.  When the first match of the pattern is right after a marker
    [v=] or [be/] and the identifier is followed by [&] or [#] (further
    query parameters, a fragment) or by nothing, the extraction returns
    the identifier without what follows it. *)
Theorem search_video_id_stops (before ID tail : pystr) :
  no_match_before (before ++ ID ++ tail) (length before) = true ->
  endswith before marker_v || endswith before marker_be = true ->
  is_empty ID = false ->
  forallb id_char ID = true ->
  match tail with [] => true | d :: _ => negb (id_char d) end = true ->
  search_video_id (before ++ ID ++ tail) = Some ID.
Proof.
  intros Hno Hend Hne Hid Ht. unfold search_video_id.
  rewrite search_from_find. cbn [app length].
  rewrite length_app.
  replace (S (length before + length (ID ++ tail)))
    with (length before + S (length (ID ++ tail)))%nat by lia.
  rewrite seq_app, find_skip by exact Hno.
  cbn [Nat.add seq find].
  rewrite id_pattern_at_boundary, Hend, (takewhile_stop _ _ _ Hid Ht), Hne.
  cbn [negb andb].
  rewrite skipn_app, skipn_all, Nat.sub_diag. cbn [skipn app].
  rewrite (takewhile_stop _ _ _ Hid Ht). reflexivity.
Qed.

Lemma search_video_id_stops_witness :
  search_video_id
    (str "https://www.youtube.com/watch?v=" ++ str "abc-123_X" ++ str "&t=42s")
  = Some (str "abc-123_X").
Proof.
  apply (search_video_id_stops (str "https://www.youtube.com/watch?v=")
           (str "abc-123_X") (str "&t=42s")); reflexivity.
Defined.

(** ** The two fallible stages, continued *)

(** X12.  When the transcript service raises, [get_youtube_transcript]
    has asked it once, for the extracted identifier.  For an exception
    of class [Exception] it returns a null transcript with the
    fetch-error message, which quotes the text of the exception; an
    exception of another class goes through the function. *)
Theorem transcript_failure_reported (W : services) (url video_id : pystr)
  (e : exn) :
  search_video_id url = Some video_id ->
  get_transcript W video_id = Raise e ->
  get_youtube_transcript W url
  = ([TranscriptRequest video_id],
     if is_exception e
     then Ok (None, Some (transcript_error_message e))
     else Raise e)
  /\ substring (exn_str e) (transcript_error_message e).
Proof.
  intros Hid He. rewrite get_youtube_transcript_cases, Hid, He.
  split; [reflexivity|]. unfold transcript_error_message. eexists _, _.
  reflexivity.
Qed.

Lemma transcript_failure_reported_witness :
  get_youtube_transcript
    {| get_transcript := fun _ => Raise (ServiceError (str "disabled"));
       generate_content := fun _ _ => Ok [] |}
    scenario_url
  = ([TranscriptRequest (str "abc123")],
     Ok (None, Some (transcript_error_message (ServiceError (str "disabled")))))
  /\ substring (exn_str (ServiceError (str "disabled")))
       (transcript_error_message (ServiceError (str "disabled"))).
Proof.
  apply (transcript_failure_reported
           {| get_transcript := fun _ => Raise (ServiceError (str "disabled"));
              generate_content := fun _ _ => Ok [] |}
           scenario_url (str "abc123") (ServiceError (str "disabled")));
    reflexivity.
Defined.

(** X13.  Whenever one of the two stages returns, the pair is
    (text, null), or (null, message) with a non-empty message, which
    the test [if error:] of [main] takes as true; a stage does not
    return only when a service raised an exception that is not of class
    [Exception]. *)
Theorem stage_errors_are_truthy (R : runtime) (W : services)
  (url api_key topic : pystr) (transcript : option pystr) :
  match snd (get_youtube_transcript W url) with
  | Ok (Some _, None) => True
  | Ok (None, Some message) => truthy (Some message) = Some message
  | Ok _ => False
  | Raise e =>
      is_exception e = false
      /\ exists video_id, get_transcript W video_id = Raise e
  end
  /\ match snd (generate_mind_map_markdown R W api_key topic transcript) with
     | Ok (Some _, None) => True
     | Ok (None, Some message) => truthy (Some message) = Some message
     | Ok _ => False
     | Raise e =>
         is_exception e = false
         /\ exists prompt, generate_content W api_key prompt = Raise e
     end.
Proof.
  split.
  - rewrite get_youtube_transcript_cases.
    destruct (search_video_id url) as [video_id|]; [|reflexivity].
    cbn [snd].
    destruct (get_transcript W video_id) as [fragments|e] eqn:E; [exact I|].
    destruct (is_exception e) eqn:Ee; [reflexivity|].
    cbv iota. split; [exact Ee | eauto].
  - rewrite generate_mind_map_markdown_cases. cbv zeta. cbn [snd].
    destruct (generate_content W api_key _) as [response_text|e] eqn:E;
      [exact I|].
    destruct (is_exception e) eqn:Ee; [reflexivity|].
    cbv iota. split; [exact Ee | eauto].
Qed.

(** X14.  [generate_mind_map_markdown] asks the generation service
    exactly once, with the credential it was given and with the fixed
    prompt in which the topic and the transcript stand unchanged (a null
    transcript reads [None]).  It returns the cleaned answer, or the
    generation-error message when the service raises an exception of
    class [Exception]; an exception of another class goes through. *)
Theorem generate_asks_once (R : runtime) (W : services)
  (api_key topic : pystr) (transcript : option pystr) :
  let shown := match transcript with Some t => t | None => str "None" end in
  generate_mind_map_markdown R W api_key topic transcript
  = ([GenerationRequest api_key (prompt_for topic shown)],
     match generate_content W api_key (prompt_for topic shown) with
     | Ok response_text => Ok (Some (clean_response response_text), None)
     | Raise e =>
         if is_exception e
         then Ok (None, Some (generation_error_message e))
         else Raise e
     end).
Proof.
  cbv zeta. rewrite generate_mind_map_markdown_cases.
  destruct transcript; reflexivity.
Qed.

(** ** The whole run, continued *)

Section MainMore.

Variable R : runtime.
Variable W : services.

Lemma create_markmap_html_name_error topic markdown_content :
  create_markmap_html R topic markdown_content
  = Raise (NameError "Transformer").
Proof. reflexivity. Qed.

Lemma truthy_invalid_url :
  truthy (Some invalid_url_message) = Some invalid_url_message.
Proof. reflexivity. Qed.

Lemma truthy_transcript_error e :
  truthy (Some (transcript_error_message e))
  = Some (transcript_error_message e).
Proof. reflexivity. Qed.

Lemma truthy_generation_error e :
  truthy (Some (generation_error_message e))
  = Some (generation_error_message e).
Proof. reflexivity. Qed.

(** The outcomes of a run with the button pressed and the three inputs
    filled, by what the two services answer. *)
Lemma main_cases api_key video_topic youtube_url :
  is_empty api_key = false -> is_empty video_topic = false ->
  is_empty youtube_url = false ->
  main R W api_key video_topic youtube_url true
  = match search_video_id youtube_url with
    | None => ([StError invalid_url_message], Ok tt)
    | Some video_id =>
        match get_transcript W video_id with
        | Raise e =>
            if is_exception e
            then ([TranscriptRequest video_id;
                   StError (transcript_error_message e)], Ok tt)
            else ([TranscriptRequest video_id], Raise e)
        | Ok fragments =>
            let prompt :=
              prompt_for video_topic (spaced (map text fragments)) in
            match generate_content W api_key prompt with
            | Raise e =>
                if is_exception e
                then ([TranscriptRequest video_id;
                       StSuccess (check_mark ++ str " Transcript extracted successfully!");
                       GenerationRequest api_key prompt;
                       StError (generation_error_message e)], Ok tt)
                else ([TranscriptRequest video_id;
                       StSuccess (check_mark ++ str " Transcript extracted successfully!");
                       GenerationRequest api_key prompt], Raise e)
            | Ok _ =>
                ([TranscriptRequest video_id;
                  StSuccess (check_mark ++ str " Transcript extracted successfully!");
                  GenerationRequest api_key prompt;
                  StSuccess (check_mark ++ str " Mind map generated successfully!")],
                 Raise (NameError "Transformer"))
            end
        end
    end.
Proof.
  intros Hk Ht Hu. unfold main. rewrite Hk, Ht, Hu.
  rewrite get_youtube_transcript_cases.
  destruct (search_video_id youtube_url) as [video_id|].
  - destruct (get_transcript W video_id) as [fragments|e].
    + unfold bind. cbv beta iota zeta.
      rewrite generate_mind_map_markdown_cases. cbv beta iota zeta.
      destruct (generate_content W api_key _) as [response_text|e].
      * cbv beta iota zeta. rewrite create_markmap_html_name_error.
        reflexivity.
      * destruct (is_exception e); cbv beta iota zeta;
          [rewrite truthy_generation_error|]; reflexivity.
    + unfold bind. destruct (is_exception e); cbv beta iota zeta;
        [rewrite truthy_transcript_error|]; reflexivity.
  - unfold bind. cbv beta iota zeta. rewrite truthy_invalid_url.
    reflexivity.
Qed.

(** A run that does not get past the form. *)
Lemma main_early api_key video_topic youtube_url generate_clicked :
  generate_clicked
  && negb (is_empty api_key || is_empty video_topic || is_empty youtube_url)
  = false ->
  snd (main R W api_key video_topic youtube_url generate_clicked) = Ok tt
  /\ network_calls
       (fst (main R W api_key video_topic youtube_url generate_clicked)) = []
  /\ existsb is_download
       (fst (main R W api_key video_topic youtube_url generate_clicked)) = false.
Proof.
  unfold main. destruct generate_clicked; [|repeat split].
  destruct (is_empty api_key); [repeat split|].
  destruct (is_empty video_topic); [repeat split|].
  destruct (is_empty youtube_url); [repeat split | discriminate].
Qed.

End MainMore.

Lemma form_filled_or_not (api_key video_topic youtube_url : pystr)
  (generate_clicked : bool) :
  (generate_clicked = true /\ is_empty api_key = false
   /\ is_empty video_topic = false /\ is_empty youtube_url = false)
  \/ generate_clicked
     && negb (is_empty api_key || is_empty video_topic || is_empty youtube_url)
     = false.
Proof.
  destruct generate_clicked, (is_empty api_key), (is_empty video_topic),
    (is_empty youtube_url); auto.
Qed.

(** X15.  When the transcript stage returns a failure, the run shows
    the message of that stage and ends normally: the generation service
    is not asked. *)
Theorem main_stops_after_transcript_failure (R : runtime) (W : services)
  (api_key video_topic youtube_url message : pystr) :
  is_empty api_key = false -> is_empty video_topic = false ->
  is_empty youtube_url = false ->
  snd (get_youtube_transcript W youtube_url) = Ok (None, Some message) ->
  main R W api_key video_topic youtube_url true
  = (fst (get_youtube_transcript W youtube_url) ++ [StError message], Ok tt)
  /\ existsb is_generation_request
       (fst (main R W api_key video_topic youtube_url true)) = false.
Proof.
  intros Hk Ht Hu. rewrite (main_cases R W _ _ _ Hk Ht Hu).
  rewrite get_youtube_transcript_cases.
  destruct (search_video_id youtube_url) as [video_id|]; cbn [fst snd].
  - destruct (get_transcript W video_id) as [fragments|e]; [discriminate|].
    destruct (is_exception e); [|discriminate].
    intros H. injection H as <-. split; reflexivity.
  - intros H. injection H as <-. split; reflexivity.
Qed.

Lemma main_stops_after_transcript_failure_witness :
  main bare_runtime scenario_services (str "test-key") scenario_topic
    (str "https://example.com/video") true
  = ([StError invalid_url_message], Ok tt).
Proof.
  apply (main_stops_after_transcript_failure bare_runtime scenario_services
           (str "test-key") scenario_topic (str "https://example.com/video")
           invalid_url_message); reflexivity.
Defined.

(** X16.  When the transcript stage succeeds and the generation stage
    returns a failure, the run shows the success of the first stage,
    then the message of the second, and ends normally without building
    a document or offering a download. *)
Theorem main_stops_after_generation_failure (R : runtime) (W : services)
  (api_key video_topic youtube_url transcript message : pystr) :
  is_empty api_key = false -> is_empty video_topic = false ->
  is_empty youtube_url = false ->
  snd (get_youtube_transcript W youtube_url) = Ok (Some transcript, None) ->
  snd (generate_mind_map_markdown R W api_key video_topic (Some transcript))
  = Ok (None, Some message) ->
  main R W api_key video_topic youtube_url true
  = (fst (get_youtube_transcript W youtube_url)
     ++ [StSuccess (check_mark ++ str " Transcript extracted successfully!")]
     ++ fst (generate_mind_map_markdown R W api_key video_topic (Some transcript))
     ++ [StError message], Ok tt)
  /\ existsb is_download
       (fst (main R W api_key video_topic youtube_url true)) = false.
Proof.
  intros Hk Ht Hu. rewrite (main_cases R W _ _ _ Hk Ht Hu).
  rewrite get_youtube_transcript_cases, generate_mind_map_markdown_cases.
  destruct (search_video_id youtube_url) as [video_id|];
    cbn [fst snd]; [|discriminate].
  destruct (get_transcript W video_id) as [fragments|e];
    [|destruct (is_exception e); discriminate].
  intros H. injection H as <-. cbv zeta. cbn [fst snd opt_value format_value].
  destruct (generate_content W api_key _) as [response_text|e]; [discriminate|].
  destruct (is_exception e); [|discriminate].
  intros H. injection H as <-. split; reflexivity.
Qed.

Lemma main_stops_after_generation_failure_witness :
  snd (main bare_runtime
         {| get_transcript := get_transcript scenario_services;
            generate_content := fun _ _ => Raise (ServiceError (str "quota")) |}
         (str "test-key") scenario_topic scenario_url true) = Ok tt.
Proof.
  apply (f_equal snd (proj1 (main_stops_after_generation_failure bare_runtime
           {| get_transcript := get_transcript scenario_services;
              generate_content := fun _ _ => Raise (ServiceError (str "quota")) |}
           (str "test-key") scenario_topic scenario_url (str "Hello World")
           (generation_error_message (ServiceError (str "quota")))
           eq_refl eq_refl eq_refl eq_refl eq_refl))).
Defined.

(** X17.  No run offers a download: whatever the inputs and the
    services, [st.download_button] is not reached.  A run ends normally,
    or with the [NameError] of the template, or with an exception that
    is not of class [Exception] and that a service raised. *)
Theorem main_never_offers_download (R : runtime) (W : services)
  (api_key video_topic youtube_url : pystr) (generate_clicked : bool) :
  existsb is_download
    (fst (main R W api_key video_topic youtube_url generate_clicked)) = false
  /\ (snd (main R W api_key video_topic youtube_url generate_clicked) = Ok tt
      \/ snd (main R W api_key video_topic youtube_url generate_clicked)
         = Raise (NameError "Transformer")
      \/ exists e,
           snd (main R W api_key video_topic youtube_url generate_clicked)
           = Raise e
           /\ is_exception e = false
           /\ ((exists video_id, get_transcript W video_id = Raise e)
               \/ (exists prompt, generate_content W api_key prompt = Raise e))).
Proof.
  destruct (form_filled_or_not api_key video_topic youtube_url generate_clicked)
    as [(-> & Hk & Ht & Hu) | H].
  - rewrite (main_cases R W _ _ _ Hk Ht Hu).
    destruct (search_video_id youtube_url) as [video_id|]; [|split; auto].
    destruct (get_transcript W video_id) as [fragments|e] eqn:Eg.
    + cbv zeta.
      destruct (generate_content W api_key _) as [response_text|e] eqn:E;
        [split; auto|].
      destruct (is_exception e) eqn:Ee; [split; auto|].
      split; [reflexivity|]. right; right. exists e. eauto 6.
    + destruct (is_exception e) eqn:Ee; [split; auto|].
      split; [reflexivity|]. right; right. exists e. eauto 6.
  - destruct (main_early R W _ _ _ _ H) as (H1 & _ & H3). auto.
Qed.

(** X18.  A run ends with the uncaught [NameError] of the template
    exactly when the button was pressed, the three inputs are filled,
    the URL holds an identifier and both services answer. *)
Theorem main_raises_iff (R : runtime) (W : services)
  (api_key video_topic youtube_url : pystr) (generate_clicked : bool) :
  snd (main R W api_key video_topic youtube_url generate_clicked)
  = Raise (NameError "Transformer")
  <-> generate_clicked = true
      /\ is_empty api_key = false /\ is_empty video_topic = false
      /\ is_empty youtube_url = false
      /\ exists video_id fragments response_text,
           search_video_id youtube_url = Some video_id
           /\ get_transcript W video_id = Ok fragments
           /\ generate_content W api_key
                (prompt_for video_topic (spaced (map text fragments)))
              = Ok response_text.
Proof.
  destruct (form_filled_or_not api_key video_topic youtube_url generate_clicked)
    as [(-> & Hk & Ht & Hu) | H].
  - rewrite (main_cases R W _ _ _ Hk Ht Hu). split.
    + destruct (search_video_id youtube_url) as [video_id|]; [|discriminate].
      destruct (get_transcript W video_id) as [fragments|e] eqn:Eg;
        [|destruct (is_exception e) eqn:Ee; [discriminate|];
          intros H0; injection H0 as ->; discriminate].
      cbv zeta.
      destruct (generate_content W api_key _) as [response_text|e] eqn:E;
        [|destruct (is_exception e) eqn:Ee; [discriminate|];
          intros H0; injection H0 as ->; discriminate].
      intros _. refine (conj eq_refl (conj Hk (conj Ht (conj Hu _)))).
      exists video_id, fragments, response_text. auto.
    + intros (_ & _ & _ & _ & video_id & fragments & response_text
              & -> & -> & E).
      cbv zeta. rewrite E. reflexivity.
  - destruct (main_early R W _ _ _ _ H) as (H1 & _ & _). rewrite H1. split.
    + discriminate.
    + intros (Hc & Hk & Ht & Hu & _). rewrite Hc, Hk, Ht, Hu in H.
      discriminate.
Qed.

(** X19.  A run asks each service at most once and never retries: the
    requests are none, or one transcript request for the identifier of
    the URL, or that request followed by one generation request whose
    prompt holds the topic and the joined transcript.  A request is made
    only with the button pressed and the three inputs filled, and the
    generation service is asked only after the transcript service has
    answered. *)
Theorem main_requests (R : runtime) (W : services)
  (api_key video_topic youtube_url : pystr) (generate_clicked : bool) :
  let calls :=
    network_calls
      (fst (main R W api_key video_topic youtube_url generate_clicked)) in
  calls = []
  \/ (generate_clicked = true
      /\ is_empty api_key = false /\ is_empty video_topic = false
      /\ is_empty youtube_url = false
      /\ exists video_id,
           search_video_id youtube_url = Some video_id
           /\ ((exists e, get_transcript W video_id = Raise e
                          /\ calls = [TranscriptRequest video_id])
               \/ (exists fragments,
                     get_transcript W video_id = Ok fragments
                     /\ calls
                        = [TranscriptRequest video_id;
                           GenerationRequest api_key
                             (prompt_for video_topic
                                (spaced (map text fragments)))]))).
Proof.
  cbv zeta.
  destruct (form_filled_or_not api_key video_topic youtube_url generate_clicked)
    as [(-> & Hk & Ht & Hu) | H].
  - rewrite (main_cases R W _ _ _ Hk Ht Hu).
    destruct (search_video_id youtube_url) as [video_id|]; [|left; reflexivity].
    right. refine (conj eq_refl (conj Hk (conj Ht (conj Hu _)))).
    exists video_id. split; [reflexivity|].
    destruct (get_transcript W video_id) as [fragments|e].
    + right. exists fragments. split; [reflexivity|]. cbv zeta.
      destruct (generate_content W api_key _) as [response_text|e];
        [|destruct (is_exception e)]; reflexivity.
    + left. exists e. split; [reflexivity|].
      destruct (is_exception e); reflexivity.
  - left. destruct (main_early R W _ _ _ _ H) as (_ & H2 & _). exact H2.
Qed.

(** X20.  The extraction finds an identifier exactly when the pattern
    matches at some position of the URL: [v=] or [be/] followed by a
    character other than [&] and [#]. *)
Theorem search_video_id_found_iff (url : pystr) :
  (exists id, search_video_id url = Some id) <-> matches_nowhere url = false.
Proof.
  pose proof (search_video_id_none_iff url) as [H1 H2].
  destruct (search_video_id url) as [id|] eqn:E; split.
  - intros _. destruct (matches_nowhere url); [|reflexivity].
    specialize (H2 eq_refl). discriminate.
  - intros _. exists id. reflexivity.
  - intros [id H]. discriminate.
  - intros H. rewrite (H1 eq_refl) in H. discriminate.
Qed.

Example main_interrupted :
  main bare_runtime interrupted_services (str "test-key") scenario_topic
    scenario_url true
  = ([TranscriptRequest (str "abc123")],
     Raise (BaseOnly "KeyboardInterrupt" [])).
Proof. reflexivity. Qed.
